(** * giftai: PDF ingestion worker and chat service

    A shallow embedding of the BullMQ workers (the remote-download worker
    of [server/worker.js] and the two local-path workers) and of the two
    Express servers (cloud-storage variant and direct-upload variant).

    Every external collaborator (axios, fs, PDFLoader, the text splitter,
    the embedding model, Qdrant, Cloudinary, the BullMQ queue and the
    OpenRouter API) is an oracle: a call is answered by a function of the
    history of calls made so far, either with a value or with a thrown
    error.  A handler is a program in a small history/exception monad; its
    run yields the settled value of the async function and the events it
    emitted, in order. *)

From Stdlib Require Import String Ascii List Bool ZArith DecimalString.
From Stdlib Require Import DecimalNat.
Import ListNotations.

Set Implicit Arguments.
Set Warnings "-register-all".
Local Open Scope string_scope.
Local Open Scope list_scope.

(** ** JavaScript values *)

Module Js.

(** JSON-shaped values: what [req.body], [job.data] and HTTP payloads hold.
    Numbers are restricted to integers. *)
Inductive value : Type :=
| Undefined
| Null
| Bool (b : bool)
| Num (z : Z)
| Str (s : string)
| Arr (items : list value)
| Obj (fields : list (string * value)).

(** [!!v] *)
Definition truthy (v : value) : bool :=
  match v with
  | Undefined | Null => false
  | Bool b => b
  | Num z => negb (Z.eqb z 0)
  | Str s => negb (String.eqb s "")
  | Arr _ | Obj _ => true
  end.

(** [a || b] *)
Definition or_else (a b : value) : value := if truthy a then a else b.

(** A thrown value: an [Error] with its [message]; an axios error also
    carries [response.data]. *)
Record error : Type := Error {
  message : string;
  response_data : option value
}.

Definition result (A : Type) : Type := (error + A)%type.

Fixpoint assoc (k : string) (fields : list (string * value)) : value :=
  match fields with
  | [] => Undefined
  | (k', v) :: rest => if String.eqb k k' then v else assoc k rest
  end.

(** [TypeError] raised by reading property [k] of [undefined] or [null]
    ([what] names which of the two). *)
Definition type_error (what k : string) : error :=
  Error ("Cannot read properties of " ++ what ++ " (reading '" ++ k ++ "')") None.

(** [v.k] for a key [k] that no built-in prototype defines (all keys read
    by the handlers are such: url, path, secure_url, query, choices,
    message, content). *)
Definition get (v : value) (k : string) : result value :=
  match v with
  | Undefined => inl (type_error "undefined" k)
  | Null => inl (type_error "null" k)
  | Obj fields => inr (assoc k fields)
  | _ => inr Undefined
  end.

(** [v[0]] *)
Definition get0 (v : value) : result value :=
  match v with
  | Undefined => inl (type_error "undefined" "0")
  | Null => inl (type_error "null" "0")
  | Arr items => inr (nth 0 items Undefined)
  | Str (String c _) => inr (Str (String c EmptyString))
  | Obj fields => inr (assoc "0" fields)
  | _ => inr Undefined
  end.

(** [xs.join(sep)] on an array of strings *)
Fixpoint join (sep : string) (xs : list string) : string :=
  match xs with
  | [] => ""
  | [x] => x
  | x :: rest => x ++ sep ++ join sep rest
  end.

(** [`${n}`] for a non-negative integer *)
Definition of_nat (n : nat) : string := NilEmpty.string_of_uint (Nat.to_uint n).

End Js.

(** ** Data exchanged with the collaborators *)

(** A LangChain [Document]. *)
Record Document : Type := mkDocument {
  pageContent : string;
  metadata : Js.value
}.

(** Options passed to [QdrantVectorStore]. *)
Record QdrantConfig : Type := mkQdrantConfig {
  url : string;
  apiKey : option string;
  collectionName : string
}.

(** Handles to objects owned by the libraries. *)
Inductive Embeddings : Type := EmbeddingsRef (id : nat).
Inductive VectorStore : Type := VectorStoreRef (id : nat).

(** [vectorStore.asRetriever({ k })] *)
Record Retriever : Type := asRetriever {
  retriever_store : VectorStore;
  retriever_k : nat
}.

(** An axios response; only [data] is read. *)
Record AxiosResponse (D : Type) : Type := mkAxiosResponse { data : D }.

(** An argument of [console.log] / [console.error]. *)
Inductive logarg : Type :=
| LStr (s : string)
| LVal (v : Js.value)
| LEnv (v : option string)
| LErr (e : Js.error).

(** ** Calls to the outside world *)

Inductive call : Type -> Type :=
| ConsoleLog (args : list logarg) : call unit
| ConsoleError (args : list logarg) : call unit
(* axios *)
| AxiosGet (target : Js.value) (responseType : string)
    : call (AxiosResponse (list Byte.byte))
| AxiosPost (target : string) (payload : Js.value) (headers : list (string * string))
    : call (AxiosResponse Js.value)
(* fs *)
| WriteFileSync (path : string) (contents : list Byte.byte) : call unit
| UnlinkSync (path : string) : call unit
(* PDFLoader(path).load() *)
| PdfLoad (path : Js.value) : call (list Document)
(* new RecursiveCharacterTextSplitter({chunkSize, chunkOverlap}).splitDocuments(docs) *)
| SplitDocuments (chunkSize chunkOverlap : nat) (docs : list Document)
    : call (list Document)
(* new HuggingFaceTransformersEmbeddings({modelName}) *)
| NewEmbeddings (modelName : string) : call Embeddings
(* QdrantVectorStore *)
| FromExistingCollection (embeddings : Embeddings) (cfg : QdrantConfig)
    : call VectorStore
| AddDocuments (store : VectorStore) (docs : list Document) : call unit
| FromDocuments (docs : list Document) (embeddings : Embeddings) (cfg : QdrantConfig)
    : call VectorStore
| RetrieverInvoke (retriever : Retriever) (query : Js.value) : call (list Document)
(* cloudinary.uploader.upload(path, {resource_type, folder}) *)
| CloudinaryUpload (path : string) (resource_type folder : string) : call Js.value
(* new Queue(queue).add(name, data) *)
| QueueAdd (queue name : string) (jobdata : Js.value) : call unit.

(** A call together with how it settled. *)
Inductive event : Type :=
| Ev {X : Type} (c : call X) (r : Js.result X).

Definition trace : Type := list event.

(** The outside world: how a call settles, given everything that happened
    before it. *)
Definition oracle : Type := forall X : Type, trace -> call X -> Js.result X.

(** ** The monad of handlers *)

(** A computation reads the history so far and yields its settled value
    together with the events it emitted itself, oldest first. *)
Definition M (A : Type) : Type := trace -> Js.result A * trace.

Definition ret {A} (a : A) : M A := fun _ => (inr a, []).

Definition throw {A} (e : Js.error) : M A := fun _ => (inl e, []).

Definition bind {A B} (m : M A) (f : A -> M B) : M B :=
  fun h =>
    let (r, t1) := m h in
    match r with
    | inl e => (inl e, t1)
    | inr a => let (r', t2) := f a (h ++ t1) in (r', t1 ++ t2)
    end.

(** [try { m } catch (e) { handler e }] *)
Definition try_catch {A} (m : M A) (handler : Js.error -> M A) : M A :=
  fun h =>
    let (r, t1) := m h in
    match r with
    | inl e => let (r', t2) := handler e (h ++ t1) in (r', t1 ++ t2)
    | inr a => (inr a, t1)
    end.

(** A pure operation that may throw. *)
Definition lift {A} (r : Js.result A) : M A := fun _ => (r, []).

Declare Scope js_scope.
Delimit Scope js_scope with js.
Notation "x <- m ;; k" := (bind m (fun x => k))
  (at level 61, m at next level, right associativity) : js_scope.
Notation "m ;; k" := (bind m (fun _ => k))
  (at level 61, right associativity) : js_scope.
Notation "'try' m 'catch' x => k" := (try_catch m (fun x => k))
  (at level 61, m at next level, x name, right associativity) : js_scope.

Definition when_ (b : bool) (m : M unit) : M unit := if b then m else ret tt.

(** ** Requests, responses and jobs *)

(** A BullMQ job; [data] is the JSON payload given to [fileQueue.add]. *)
Record Job : Type := mkJob { job_data : Js.value }.

(** [req.file], as multer's disk storage fills it. *)
Record File : Type := mkFile {
  originalname : string;
  destination : string;
  path : string
}.

(** An Express request: the body parsed by [express.json()] and the file
    stored by [upload.single("pdf")], when one was attached. *)
Record Request : Type := mkRequest {
  body : Js.value;
  file : option File
}.

(** [res.status(status).json(json)] *)
Record Response : Type := mkResponse {
  status : nat;
  json : Js.value
}.

Section Handlers.

(** The world the process runs in. *)
Variable ask : oracle.
(** [process.env] *)
Variable env : string -> option string.
(** [path.basename], which throws on a non-string, and [path.join]. *)
Variable path_basename : Js.value -> Js.result string.
Variable path_join : string -> string -> string.

Local Open Scope js_scope.

(** Perform a call: the world settles it and the event is recorded. *)
Definition perform {X} (c : call X) : M X :=
  fun h => let r := ask h c in (r, [Ev c r]).

(** [console.log] and [console.error] return normally. *)
Definition console_log (args : list logarg) : M unit :=
  fun _ => (inr tt, [Ev (ConsoleLog args) (inr tt)]).

Definition console_error (args : list logarg) : M unit :=
  fun _ => (inr tt, [Ev (ConsoleError args) (inr tt)]).

(** [process.env.K || fallback] *)
Definition env_or (k fallback : string) : string :=
  match env k with
  | Some s => if String.eqb s "" then fallback else s
  | None => fallback
  end.

(** [`${process.env.K}`] *)
Definition env_text (k : string) : string :=
  match env k with
  | Some s => s
  | None => "undefined"
  end.

(** The options object both workers and both servers pass to Qdrant. *)
Definition qdrant_config : QdrantConfig :=
  {| url := env_or "QDRANT_URL" "http://localhost:6333";
     apiKey := env "QDRANT_API_KEY";
     collectionName := "pdf-docs" |}.

Definition modelName : string := "Xenova/all-MiniLM-L6-v2".

(** *** The index write, the same block in every worker

    [connecting] tells whether the variant logs the connection first (the
    two workers with an IORedis connection do, the third does not). *)
Definition upsert (connecting : bool) (splitDocs : list Document)
    (embeddings : Embeddings) : M unit :=
  try (
    when_ connecting
      (console_log [LStr "🔌 Connecting to Qdrant:"; LEnv (env "QDRANT_URL")]) ;;
    vectorStore <- perform (FromExistingCollection embeddings qdrant_config) ;;
    perform (AddDocuments vectorStore splitDocs) ;;
    console_log [LStr ("✅ Added " ++ Js.of_nat (length splitDocs)
                       ++ " chunks to existing collection")]
  ) catch err =>
    console_log [LStr "⚠️ Collection not found, creating new..."] ;;
    perform (FromDocuments splitDocs embeddings qdrant_config) ;;
    console_log [LStr ("✅ Created collection and stored "
                       ++ Js.of_nat (length splitDocs) ++ " chunks")].

(** *** server/worker.js: the remote-download worker *)
Definition worker_remote (job : Job) : M unit :=
  console_log [LStr "📄 Processing job:"; LVal (job_data job)] ;;
  try (
    fileUrl <- lift (Js.get (job_data job) "url") ;;
    when_ (negb (Js.truthy fileUrl))
      (throw (Js.Error "No file URL provided in job data" None)) ;;
    (* Download PDF from Cloudinary *)
    response <- perform (AxiosGet fileUrl "arraybuffer") ;;
    base <- lift (path_basename fileUrl) ;;
    let tempFilePath := path_join "/tmp" base in
    perform (WriteFileSync tempFilePath (data response)) ;;
    console_log [LStr ("✅ PDF downloaded to temp path: " ++ tempFilePath)] ;;
    (* Load PDF *)
    docs <- perform (PdfLoad (Js.Str tempFilePath)) ;;
    console_log [LStr ("✅ Loaded " ++ Js.of_nat (length docs) ++ " docs from PDF")] ;;
    if Nat.eqb (length docs) 0 then
      console_error [LStr "⚠️ No text extracted from PDF"]
    else
      (* Split docs into chunks *)
      splitDocs <- perform (SplitDocuments 1000 200 docs) ;;
      console_log [LStr ("✂️ Split into " ++ Js.of_nat (length splitDocs) ++ " chunks")] ;;
      (* Embeddings model *)
      embeddings <- perform (NewEmbeddings modelName) ;;
      (* Connect to Qdrant *)
      upsert true splitDocs embeddings ;;
      (* Cleanup temp file *)
      perform (UnlinkSync tempFilePath) ;;
      console_log [LStr "🧹 Temp PDF file deleted"]
  ) catch error =>
    console_error [LStr "❌ Error processing PDF:"; LErr error].

(** *** The local-path worker; [connecting] as for [upsert] *)
Definition worker_local_with (connecting : bool) (job : Job) : M unit :=
  console_log [LStr "📄 Processing job:"; LVal (job_data job)] ;;
  try (
    (* Load PDF *)
    pdfPath <- lift (Js.get (job_data job) "path") ;;
    docs <- perform (PdfLoad pdfPath) ;;
    console_log [LStr ("✅ Loaded " ++ Js.of_nat (length docs) ++ " docs from PDF")] ;;
    if Nat.eqb (length docs) 0 then
      console_error [LStr "⚠️ No text extracted from PDF"]
    else
      splitDocs <- perform (SplitDocuments 1000 200 docs) ;;
      console_log [LStr ("✂️ Split into " ++ Js.of_nat (length splitDocs) ++ " chunks")] ;;
      embeddings <- perform (NewEmbeddings modelName) ;;
      upsert connecting splitDocs embeddings
  ) catch error =>
    console_error [LStr "❌ Error processing PDF:"; LErr error].

(** The local-path worker with the IORedis connection. *)
Definition worker_local : Job -> M unit := worker_local_with true.

(** The local-path worker of the second document of server/worker.js. *)
Definition worker_local_plain : Job -> M unit := worker_local_with false.

(** *** The servers *)

Definition nl : string := String (ascii_of_nat 10) EmptyString.

Definition field_str (k v : string) : string * Js.value := (k, Js.Str v).

(** The guard and the Cloudinary hand-off of the cloud-storage server. *)
Definition upload_pdf_cloud (req : Request) : M Response :=
  match file req with
  | None => ret (mkResponse 400 (Js.Obj [field_str "error" "No file uploaded"]))
  | Some f =>
    try (
      (* Upload PDF to Cloudinary *)
      result <- perform (CloudinaryUpload (path f) "raw" "pdfs") ;;
      secure_url <- lift (Js.get result "secure_url") ;;
      (* Add job to BullMQ with Cloudinary URL *)
      perform (QueueAdd "file-upload-queue" "file-ready"
                 (Js.Obj [field_str "filename" (originalname f);
                          ("url", secure_url)])) ;;
      ret (mkResponse 200
             (Js.Obj [field_str "message" "File uploaded successfully";
                      ("file", Js.Obj [field_str "name" (originalname f);
                                       ("url", secure_url)])]))
    ) catch err =>
      console_error [LStr "Cloudinary upload error:"; LErr err] ;;
      ret (mkResponse 500 (Js.Obj [field_str "error" "Failed to upload file"]))
  end.

(** The upload route of the direct-upload server. *)
Definition upload_pdf_local (req : Request) : M Response :=
  match file req with
  | None => ret (mkResponse 400 (Js.Obj [field_str "error" "No file uploaded"]))
  | Some f =>
    (* Add job to BullMQ *)
    perform (QueueAdd "file-upload-queue" "file-ready"
               (Js.Obj [field_str "filename" (originalname f);
                        field_str "destination" (destination f);
                        field_str "path" (path f)])) ;;
    ret (mkResponse 200
           (Js.Obj [field_str "message" "File uploaded successfully";
                    ("file", Js.Obj [field_str "name" (originalname f);
                                     field_str "path" (path f)])]))
  end.

(** [docs.map(d => d.pageContent).join("\n")] *)
Definition context_of (docs : list Document) : string :=
  Js.join nl (map pageContent docs).

(** [SYSTEM_PROMPT] of the cloud-storage server. *)
Definition SYSTEM_PROMPT_cloud (docs : list Document) : string :=
  nl ++ "      You are a helpful AI Agent. Use the provided documents to answer user queries."
  ++ nl ++ "      Do not mention document sources in your answer."
  ++ nl ++ "      Context: " ++ context_of docs
  ++ nl ++ "    ".

(** [SYSTEM_PROMPT] of the direct-upload server. *)
Definition SYSTEM_PROMPT_local (docs : list Document) : string :=
  nl ++ "      You are a helpful AI Agent. Use the provided documents to answer user queries.dont say in answer about document you get answer be professional"
  ++ nl ++ "      Context, also dont answer question not in docs, only you can answer from docs and basic formal replies: " ++ context_of docs
  ++ nl ++ "    ".

(** The request body sent to OpenRouter. *)
Definition completion_request (system_prompt : string) (query : Js.value) : Js.value :=
  Js.Obj [field_str "model" "deepseek/deepseek-chat";
          ("messages",
           Js.Arr [Js.Obj [field_str "role" "system";
                           field_str "content" system_prompt];
                   Js.Obj [field_str "role" "user"; ("content", query)]])].

Definition completion_headers : list (string * string) :=
  [("Authorization", ("Bearer " ++ env_text "DEEPSEEK_API_KEY")%string);
   ("HTTP-Referer", env_or "SITE_URL" "http://localhost:3000");
   ("X-Title", env_or "APP_NAME" "RAG Application");
   ("Content-Type", "application/json")].

(** [docs.map(d => ({ pageContent: d.pageContent }))] *)
Definition docs_json (docs : list Document) : Js.value :=
  Js.Arr (map (fun d => Js.Obj [field_str "pageContent" (pageContent d)]) docs).

(** [error.response?.data || error.message] *)
Definition error_details (e : Js.error) : Js.value :=
  match Js.response_data e with
  | Some d => Js.or_else d (Js.Str (Js.message e))
  | None => Js.Str (Js.message e)
  end.

(** What follows the query guard, the same in both servers up to the
    prompt. *)
Definition chat_answer (system_prompt : list Document -> string)
    (query : Js.value) : M Response :=
  try (
    embeddings <- perform (NewEmbeddings modelName) ;;
    vectorStore <- perform (FromExistingCollection embeddings qdrant_config) ;;
    let retriever := asRetriever vectorStore 2 in
    docs <- perform (RetrieverInvoke retriever query) ;;
    response <- perform (AxiosPost "https://openrouter.ai/api/v1/chat/completions"
                           (completion_request (system_prompt docs) query)
                           completion_headers) ;;
    choices <- lift (Js.get (data response) "choices") ;;
    choice <- lift (Js.get0 choices) ;;
    msg <- lift (Js.get choice "message") ;;
    content <- lift (Js.get msg "content") ;;
    ret (mkResponse 200 (Js.Obj [("answer", content); ("docs", docs_json docs)]))
  ) catch error =>
    console_error [LStr "Error in chat endpoint:"; LVal (error_details error)] ;;
    ret (mkResponse 500
           (Js.Obj [field_str "error" "Internal server error";
                    ("details", error_details error)])).

(** [POST /chat] of the cloud-storage server. *)
Definition chat_cloud (req : Request) : M Response :=
  query <- lift (Js.get (body req) "query") ;;
  if negb (Js.truthy query) then
    ret (mkResponse 400 (Js.Obj [field_str "error" "Query is required"]))
  else chat_answer SYSTEM_PROMPT_cloud query.

(** [POST /chat] of the direct-upload server. *)
Definition chat_local (req : Request) : M Response :=
  query <- lift (Js.get (body req) "query") ;;
  console_log [LEnv (env "DEEPSEEK_API_KEY")] ;;
  if negb (Js.truthy query) then
    ret (mkResponse 400 (Js.Obj [field_str "error" "Query is required"]))
  else chat_answer SYSTEM_PROMPT_local query.

End Handlers.

(** ** Vocabulary for traces *)

(** What a call is, whatever its arguments. *)
Inductive kind : Type :=
| Console | Download | ModelCall | WriteFile | Unlink | Extract | Split
| Embed | Connect | Append | Create | Retrieve | CloudUpload | Enqueue.

Definition kind_of_call {X} (c : call X) : kind :=
  match c with
  | ConsoleLog _ | ConsoleError _ => Console
  | AxiosGet _ _ => Download
  | AxiosPost _ _ _ => ModelCall
  | WriteFileSync _ _ => WriteFile
  | UnlinkSync _ => Unlink
  | PdfLoad _ => Extract
  | SplitDocuments _ _ _ => Split
  | NewEmbeddings _ => Embed
  | FromExistingCollection _ _ => Connect
  | AddDocuments _ _ => Append
  | FromDocuments _ _ _ => Create
  | RetrieverInvoke _ _ => Retrieve
  | CloudinaryUpload _ _ _ => CloudUpload
  | QueueAdd _ _ _ => Enqueue
  end.

Definition kind_of (ev : event) : kind :=
  match ev with Ev c _ => kind_of_call c end.

Definition kind_eqb (a b : kind) : bool :=
  match a, b with
  | Console, Console | Download, Download | ModelCall, ModelCall
  | WriteFile, WriteFile | Unlink, Unlink | Extract, Extract | Split, Split
  | Embed, Embed | Connect, Connect | Append, Append | Create, Create
  | Retrieve, Retrieve | CloudUpload, CloudUpload | Enqueue, Enqueue => true
  | _, _ => false
  end.

Definition of_kind (k : kind) (ev : event) : bool := kind_eqb (kind_of ev) k.

Definition among (ks : list kind) (ev : event) : bool :=
  existsb (kind_eqb (kind_of ev)) ks.

(** No event of the trace is of one of the kinds. *)
Definition never (ks : list kind) (t : trace) : bool :=
  forallb (fun ev => negb (among ks ev)) t.

(** The calls to the vector index. *)
Definition qdrant : list kind := [Connect; Append; Create; Retrieve].

(** The error an event settled with, when it threw. *)
Definition thrown (ev : event) : option Js.error :=
  match ev with
  | Ev _ (inl e) => Some e
  | Ev _ (inr _) => None
  end.

Definition succeeded (ev : event) : bool :=
  match thrown ev with Some _ => false | None => true end.

(** The first event on which [f] is defined. *)
Fixpoint first {A} (f : event -> option A) (t : trace) : option A :=
  match t with
  | [] => None
  | ev :: rest =>
    match f ev with
    | Some a => Some a
    | None => first f rest
    end
  end.

(** The segments a successful extraction returned. *)
Definition extracted (ev : event) : option (list Document) :=
  match ev with
  | Ev c r =>
    match c in call X return Js.result X -> option (list Document) with
    | PdfLoad _ => fun r => match r with inr docs => Some docs | inl _ => None end
    | _ => fun _ => None
    end r
  end.

(** The chunks a successful split returned. *)
Definition split_into (ev : event) : option (list Document) :=
  match ev with
  | Ev c r =>
    match c in call X return Js.result X -> option (list Document) with
    | SplitDocuments _ _ _ =>
        fun r => match r with inr chunks => Some chunks | inl _ => None end
    | _ => fun _ => None
    end r
  end.

(** The embedding model a successful instantiation returned. *)
Definition embedder (ev : event) : option Embeddings :=
  match ev with
  | Ev c r =>
    match c in call X return Js.result X -> option Embeddings with
    | NewEmbeddings _ => fun r => match r with inr e => Some e | inl _ => None end
    | _ => fun _ => None
    end r
  end.

(** The chunks of a job are ready once they are split and the embedding
    model is at hand. *)
Definition chunks_ready (t : trace) : option (list Document * Embeddings) :=
  match first split_into t, first embedder t with
  | Some chunks, Some e => Some (chunks, e)
  | _, _ => None
  end.

(** How BullMQ settles a job from the processor's promise: completed
    (acknowledged) when it resolves, failed (and retried as configured)
    when it rejects. *)
Inductive JobState : Type := Completed | Failed.

Definition settle (r : Js.result unit) : JobState :=
  match r with
  | inr _ => Completed
  | inl _ => Failed
  end.

(** Every worker of the repository. *)
Definition workers (ask : oracle) (env : string -> option string)
    (path_basename : Js.value -> Js.result string)
    (path_join : string -> string -> string) : list (Job -> M unit) :=
  [worker_remote ask env path_basename path_join;
   worker_local ask env;
   worker_local_plain ask env].

(** The servers' routes. *)
Definition uploads (ask : oracle) : list (Request -> M Response) :=
  [upload_pdf_cloud ask; upload_pdf_local ask].

Definition chats (ask : oracle) (env : string -> option string)
    : list (Request -> M Response) :=
  [chat_cloud ask env; chat_local ask env].

(** The chat routes, each with its system prompt. *)
Definition prompted_chats (ask : oracle) (env : string -> option string)
    : list ((Request -> M Response) * (list Document -> string)) :=
  [(chat_cloud ask env, SYSTEM_PROMPT_cloud);
   (chat_local ask env, SYSTEM_PROMPT_local)].

(** A failure that the append-then-create block does not absorb: the error
    thrown by any call other than the two calls of the append attempt. *)
Definition escaping (ev : event) : option Js.error :=
  if among [Connect; Append] ev then None else thrown ev.

(** Some chunks were written to the index. *)
Definition indexed (t : trace) : bool :=
  existsb (fun ev => among [Append; Create] ev && succeeded ev) t.

(** The events before the first one of kind [k]. *)
Fixpoint upto (k : kind) (t : trace) : trace :=
  match t with
  | [] => []
  | ev :: rest => if of_kind k ev then [] else ev :: upto k rest
  end.

(** The calls of the append-then-create block, one list per way it can go. *)
Inductive upsert_calls (cfg : QdrantConfig) (chunks : list Document)
    (emb : Embeddings) : trace -> Prop :=
| Appended (store : VectorStore) :
    upsert_calls cfg chunks emb
      [Ev (FromExistingCollection emb cfg) (inr store);
       Ev (AddDocuments store chunks) (inr tt)]
| CreatedAfterConnect (e : Js.error) (r : Js.result VectorStore) :
    upsert_calls cfg chunks emb
      [Ev (FromExistingCollection emb cfg) (inl e);
       Ev (FromDocuments chunks emb cfg) r]
| CreatedAfterAdd (store : VectorStore) (e : Js.error) (r : Js.result VectorStore) :
    upsert_calls cfg chunks emb
      [Ev (FromExistingCollection emb cfg) (inr store);
       Ev (AddDocuments store chunks) (inl e);
       Ev (FromDocuments chunks emb cfg) r].

(** The documents a retrieval returned, with the retriever and the query. *)
Definition retrieved (ev : event) : option (Retriever * Js.value * list Document) :=
  match ev with
  | Ev c r =>
    match c in call X return Js.result X -> option (Retriever * Js.value * list Document) with
    | RetrieverInvoke rt q =>
        fun r => match r with inr docs => Some (rt, q, docs) | inl _ => None end
    | _ => fun _ => None
    end r
  end.

(** The request of a call to the remote model, however it settled. *)
Definition model_request (ev : event) : option (string * Js.value) :=
  match ev with
  | Ev (AxiosPost target payload _) _ => Some (target, payload)
  | Ev _ _ => None
  end.



(** [needle] occurs in [text]. *)
Definition occurs (needle text : string) : Prop :=
  exists before after : string, text = (before ++ needle ++ after)%string.

(** ** Concrete worlds *)

Module World.

Definition no_env : string -> option string := fun _ => None.

Definition basename (v : Js.value) : Js.result string :=
  match v with
  | Js.Str _ => inr "report.pdf"
  | _ => inl (Js.Error "ERR_INVALID_ARG_TYPE" None)
  end.

Definition join (dir name : string) : string := (dir ++ "/" ++ name)%string.

Definition page (text : string) : Document := mkDocument text Js.Null.

Definition completion : Js.value :=
  Js.Obj [("choices",
           Js.Arr [Js.Obj [("message",
                            Js.Obj [field_str "role" "assistant";
                                    field_str "content" "Forty-two."])]])].

(** Every call succeeds: the PDF has two pages, the splitter returns them
    unchanged, the index holds two chunks. *)
Definition obliging : oracle :=
  fun X _ c =>
    match c in call X return Js.result X with
    | ConsoleLog _ | ConsoleError _ => inr tt
    | AxiosGet _ _ => inr (mkAxiosResponse (@nil Byte.byte))
    | AxiosPost _ _ _ => inr (mkAxiosResponse completion)
    | WriteFileSync _ _ | UnlinkSync _ => inr tt
    | PdfLoad _ => inr [page "page one"; page "page two"]
    | SplitDocuments _ _ docs => inr docs
    | NewEmbeddings _ => inr (EmbeddingsRef 0)
    | FromExistingCollection _ _ => inr (VectorStoreRef 0)
    | AddDocuments _ _ => inr tt
    | FromDocuments _ _ _ => inr (VectorStoreRef 0)
    | RetrieverInvoke _ _ => inr [page "alpha"; page "beta"]
    | CloudinaryUpload _ _ _ =>
        inr (Js.Obj [field_str "secure_url" "https://res.cloudinary.com/demo/raw/upload/pdfs/report.pdf"])
    | QueueAdd _ _ _ => inr tt
    end.

(** As [obliging], but every call of kind [k] throws [e]. *)
Definition failing (k : kind) (e : Js.error) : oracle :=
  fun X h c =>
    if kind_eqb (kind_of_call c) k then inl e else obliging h c.

(** As [obliging], but the PDF has no text. *)
Definition blank_pdf : oracle :=
  fun X h c =>
    match c in call X return Js.result X -> Js.result X with
    | PdfLoad _ => fun _ => inr []
    | _ => fun r => r
    end (obliging h c).

(** As [obliging], but connecting to the collection throws until a
    creation has succeeded. *)
Definition fresh_index : oracle :=
  fun X h c =>
    match c in call X return Js.result X -> Js.result X with
    | FromExistingCollection _ _ =>
        fun r =>
          if existsb (fun ev => of_kind Create ev && succeeded ev) h then r
          else inl (Js.Error "Not found: Collection pdf-docs doesn't exist" None)
    | _ => fun r => r
    end (obliging h c).

Definition boom : Js.error := Js.Error "ENOENT: no such file or directory" None.

Definition remote_job : Job :=
  mkJob (Js.Obj [field_str "filename" "report.pdf";
                 field_str "url" "https://res.cloudinary.com/demo/raw/upload/pdfs/report.pdf"]).

Definition local_job : Job :=
  mkJob (Js.Obj [field_str "filename" "report.pdf";
                 field_str "destination" "uploads/";
                 field_str "path" "uploads/report.pdf-1700000000000-42"]).

Definition no_url_job : Job := mkJob (Js.Obj [field_str "filename" "report.pdf"]).

Definition question : Request :=
  mkRequest (Js.Obj [field_str "query" "What is the answer?"]) None.

Definition empty_question : Request :=
  mkRequest (Js.Obj [field_str "query" ""]) None.

Definition no_file : Request := mkRequest (Js.Obj []) None.

End World.

(** ** Two statements of the specification, as they are written

    The code does not bear them out; they are refuted below. *)

(** A job that raised an exception is surfaced to the queue as a failure. *)
Definition surfaces_failure (w : Job -> M unit) (job : Job) (h : trace) : Prop :=
  forall e, first escaping (snd (w job h)) = Some e ->
            settle (fst (w job h)) = Failed.

(** A successfully indexed upload has a file deleted by the worker. *)
Definition deletes_after_indexing (w : Job -> M unit) (job : Job) (h : trace) : Prop :=
  indexed (snd (w job h)) = true ->
  existsb (of_kind Unlink) (snd (w job h)) = true.

(** ** Further vocabulary *)

(** The calls of a run other than the console lines. *)
Definition outside (t : trace) : trace :=
  filter (fun ev => negb (of_kind Console ev)) t.

(** The values [f] yields along a trace, in order. *)
Fixpoint collect {A} (f : event -> option A) (t : trace) : list A :=
  match t with
  | [] => []
  | ev :: rest =>
    match f ev with
    | Some a => a :: collect f rest
    | None => collect f rest
    end
  end.

(** Queue, job name and payload of a call to [fileQueue.add]. *)
Definition enqueued (ev : event) : option (string * string * Js.value) :=
  match ev with
  | Ev (QueueAdd q n d) _ => Some (q, n, d)
  | Ev _ _ => None
  end.

(** The options a call to Qdrant was given. *)
Definition config_of (ev : event) : option QdrantConfig :=
  match ev with
  | Ev (FromExistingCollection _ cfg) _ => Some cfg
  | Ev (FromDocuments _ _ cfg) _ => Some cfg
  | Ev _ _ => None
  end.

(** Target and headers of a call to the remote model. *)
Definition model_headers (ev : event) : option (string * list (string * string)) :=
  match ev with
  | Ev (AxiosPost target _ headers) _ => Some (target, headers)
  | Ev _ _ => None
  end.

(** What a call to the PDF loader was given. *)
Definition loaded_from (ev : event) : option Js.value :=
  match ev with
  | Ev (PdfLoad p) _ => Some p
  | Ev _ _ => None
  end.

(** The stored path and the answer of a successful upload to Cloudinary. *)
Definition cloud_accepted (ev : event) : option (string * Js.value) :=
  match ev with
  | Ev (CloudinaryUpload p _ _) (inr answer) => Some (p, answer)
  | Ev _ _ => None
  end.

(** The error a [console.error] line reports after its label. *)
Definition logged_error (ev : event) : option Js.error :=
  match ev with
  | Ev (ConsoleError [_; LErr e]) _ => Some e
  | Ev _ _ => None
  end.

(** [ks] is an initial segment of [full]. *)
Fixpoint is_prefix (ks full : list kind) : bool :=
  match ks, full with
  | [], _ => true
  | k :: ks', k' :: full' => kind_eqb k k' && is_prefix ks' full'
  | _ :: _, [] => false
  end.

(** The successful index writes of a run. *)
Definition index_writes (t : trace) : trace :=
  filter (fun ev => among [Append; Create] ev && succeeded ev) t.




(** The order of the calls of a chat request. *)
Definition chat_order : list kind := [Embed; Connect; Retrieve; ModelCall].

(** *** multer's disk storage

    [now] stands for [Date.now()] and [rnd] for
    [Math.round(Math.random() * 1e9)], both non-negative integers. *)
Definition uniqueSuffix (now rnd : nat) : string :=
  (Js.of_nat now ++ "-" ++ Js.of_nat rnd)%string.

Definition storage_filename (originalname : string) (now rnd : nat) : string :=
  (originalname ++ "-" ++ uniqueSuffix now rnd)%string.

(** [s] holds no dash. *)
Definition dash_free (s : string) : Prop :=
  forall before after : string, s <> (before ++ "-" ++ after)%string.

(** ** Further concrete worlds *)

Module Scenario.

Definition report : File :=
  mkFile "report.pdf" "uploads/" "uploads/report.pdf-17-42".

Definition upload : Request := mkRequest (Js.Obj []) (Some report).

(** Cloudinary answers without [secure_url]. *)
Definition no_secure_url : oracle :=
  fun X h c =>
    match c in call X return Js.result X -> Js.result X with
    | CloudinaryUpload _ _ _ => fun _ => inr (Js.Obj [field_str "public_id" "pdfs/report"])
    | _ => fun r => r
    end (World.obliging h c).


Definition redis_down : Js.error := Js.Error "connect ECONNREFUSED" None.

Definition null_query : Request :=
  mkRequest (Js.Obj [("query", Js.Null)]) None.

Definition numeric_url_job : Job := mkJob (Js.Obj [("url", Js.Num 7)]).

Definition null_job : Job := mkJob Js.Null.

Definition no_path_job : Job := mkJob (Js.Obj [field_str "filename" "report.pdf"]).

End Scenario.

(** ** What a worker raises by itself

    Besides the errors its calls throw, a worker raises errors with its
    own statements: the read of a property of job data that is [null] or
    [undefined], the guard on the URL, and [path.basename] on what is not
    a string. *)

(** [new Error("No file URL provided in job data")] *)
Definition no_url_error : Js.error :=
  Js.Error "No file URL provided in job data" None.

Definition own_throw_remote (path_basename : Js.value -> Js.result string)
    (job : Job) : option Js.error :=
  match Js.get (job_data job) "url" with
  | inl e => Some e
  | inr fileUrl =>
    if Js.truthy fileUrl then
      match path_basename fileUrl with
      | inl e => Some e
      | inr _ => None
      end
    else Some no_url_error
  end.

Definition own_throw_local (job : Job) : option Js.error :=
  match Js.get (job_data job) "path" with
  | inl e => Some e
  | inr _ => None
  end.

(** Every worker, with what it raises by itself on a job. *)
Definition workers_and_own_throws (ask : oracle) (env : string -> option string)
    (path_basename : Js.value -> Js.result string)
    (path_join : string -> string -> string)
    : list ((Job -> M unit) * (Job -> option Js.error)) :=
  [(worker_remote ask env path_basename path_join, own_throw_remote path_basename);
   (worker_local ask env, own_throw_local);
   (worker_local_plain ask env, own_throw_local)].

(** The line the outer handler of a worker logs for [e]. *)
Definition error_line (e : Js.error) : event :=
  Ev (ConsoleError [LStr "❌ Error processing PDF:"; LErr e]) (inr tt).

(** ** The wording of the system prompts *)

(** [text] starts with [needle]. *)
Fixpoint starts_with (needle text : string) : bool :=
  match needle with
  | EmptyString => true
  | String a needle' =>
    match text with
    | EmptyString => false
    | String b text' => Ascii.eqb a b && starts_with needle' text'
    end
  end.

(** [needle] is found somewhere in [text]: a test for [occurs]. *)
Fixpoint includes (needle text : string) : bool :=
  starts_with needle text
  || match text with
     | EmptyString => false
     | String _ rest => includes needle rest
     end.

(** The words of a prompt that do not come from the retrieved documents:
    the prompt built from no document. *)
Definition own_words (prompt : list Document -> string) : string := prompt [].

(** Words by which an instruction confines the answers to what it was
    given. *)
Definition restricting_words : list string :=
  ["only"; "solely"; "exclusively"; "nothing but"; "nothing else"; "not in";
   "outside"; "otherwise"; "unless"].

(** The statement of the specification, as it is written: the prompt tells
    the model to answer only from the context, that is, its own words
    hold a restricting word. *)
Definition answers_only_from_context (prompt : list Document -> string) : Prop :=
  exists w, In w restricting_words /\ occurs w (own_words prompt).

(** The handler refused the request: it threw, or it answered with an
    error status. *)
Definition refused (r : Js.result Response) : Prop :=
  match r with
  | inl _ => True
  | inr resp => 400 <= status resp
  end.

(** A request that came without a body. *)
Definition no_body : Request := mkRequest Js.Undefined None.

(** ** Unfolding a run *)

Ltac unfold_run :=
  cbv beta iota zeta delta
    [worker_remote worker_local worker_local_plain worker_local_with upsert
     upload_pdf_cloud upload_pdf_local chat_cloud chat_local chat_answer
     bind try_catch perform console_log console_error ret throw lift when_
     fst snd negb].

(** Case analysis on what the run waits for next: how a call settles, or
    the value a pure operation yields. *)
Ltac next_step ask pb :=
  match goal with
  | |- context [ask ?X ?h ?c] =>
      let r := fresh "r" in
      let E := fresh "E" in
      destruct (ask X h c) as [r | r] eqn:E
  | |- context [Js.get ?v ?k] =>
      let r := fresh "v" in
      let E := fresh "G" in
      destruct (Js.get v k) as [r | r] eqn:E
  | |- context [Js.get0 ?v] =>
      let r := fresh "v" in
      let E := fresh "G" in
      destruct (Js.get0 v) as [r | r] eqn:E
  | |- context [Js.truthy ?v] =>
      let E := fresh "T" in
      destruct (Js.truthy v) eqn:E
  | |- context [pb ?v] =>
      let r := fresh "base" in
      let E := fresh "B" in
      destruct (pb v) as [r | r] eqn:E
  | |- context [Nat.eqb (length ?l) 0] =>
      is_var l; destruct l; cbn [length Nat.eqb]
  end.

Ltac run_all ask pb := unfold_run; repeat (next_step ask pb; unfold_run).

(** Run a worker or a route by cases, leaving one goal per way the world
    can answer. *)
Ltac run_cases ask pb w job h :=
  let r := fresh "r" in
  let t := fresh "t" in
  let Hrun := fresh "Hrun" in
  destruct (w job h) as [r t] eqn:Hrun; revert Hrun;
  run_all ask pb; intros [= <- <-].

(** The same for each worker of [workers]. *)
Ltac each_worker ask env pb pj Hw job h :=
  destruct Hw as [<- | [<- | [<- | []]]];
  [ run_cases ask pb (worker_remote ask env pb pj) job h
  | run_cases ask pb (worker_local ask env) job h
  | run_cases ask pb (worker_local_plain ask env) job h ].

Ltac no_units :=
  repeat match goal with u : unit |- _ => destruct u end.

(** [exists before, t = before ++ [last]] on an explicit trace. *)
Ltac ends_with :=
  match goal with
  | |- exists before, ?t = before ++ [_] => exists (removelast t); reflexivity
  end.

(** The same for a trace that ends with a failing call and a log line. *)
Ltac ends_with_two :=
  match goal with
  | |- exists before failing, ?t = before ++ [failing; _] /\ _ =>
      exists (removelast (removelast t)),
             (last (removelast t) (Ev (ConsoleLog []) (inr tt)));
      repeat split
  end.

(** Run a chat route whose query passed the guard. *)
Ltac run_chat ask Hq HT :=
  match goal with
  | |- context [?c ?req ?h] =>
      match type of (c req h) with
      | (Js.result Response * trace)%type =>
          let r := fresh "r" in
          let t := fresh "t" in
          let Hrun := fresh "Hrun" in
          destruct (c req h) as [r t] eqn:Hrun; revert Hrun;
          unfold_run; rewrite Hq; unfold_run; rewrite HT;
          run_all ask ask; intros [= <- <-]
      end
  end.


(** Run a route after using the equation [H] about its request. *)
Ltac run_given H ask w req h :=
  let r := fresh "r" in
  let t := fresh "t" in
  let Hrun := fresh "Hrun" in
  destruct (w req h) as [r t] eqn:Hrun; revert Hrun;
  unfold_run; rewrite H; run_all ask (@id nat); intros [= <- <-].

(** The same for a trace that ends with the line of an error the worker
    raised by itself. *)
Ltac ends_with_own :=
  match goal with
  | |- exists before, ?t = before ++ [_] /\ _ =>
      exists (removelast t); split; reflexivity
  end.

(** ** Properties of the workers *)

(** C10. When the job data has no [url], the remote-download worker throws
    and catches [No file URL provided in job data]: the run consists of the
    two console lines only (no download, no temp file, no index write),
    and the processor returns normally. *)
Theorem worker_remote_no_url :
  forall ask env path_basename path_join job h,
    Js.get (job_data job) "url" = inr Js.Undefined ->
    worker_remote ask env path_basename path_join job h =
      (inr tt,
       [Ev (ConsoleLog [LStr "📄 Processing job:"; LVal (job_data job)]) (inr tt);
        Ev (ConsoleError
              [LStr "❌ Error processing PDF:";
               LErr (Js.Error "No file URL provided in job data" None)]) (inr tt)]).
Proof.
  intros ask env pb pj job h Hurl.
  unfold_run. rewrite Hurl. reflexivity.
Qed.


Lemma worker_remote_no_url_witness :
  Js.get (job_data World.no_url_job) "url" = inr Js.Undefined /\
  worker_remote World.obliging World.no_env World.basename World.join
    World.no_url_job [] =
    (inr tt,
     [Ev (ConsoleLog [LStr "📄 Processing job:"; LVal (job_data World.no_url_job)])
         (inr tt);
      Ev (ConsoleError
            [LStr "❌ Error processing PDF:";
             LErr (Js.Error "No file URL provided in job data" None)]) (inr tt)]).
Proof.
  split; [reflexivity | apply worker_remote_no_url; reflexivity].
Defined.

(** C3. When extraction yields zero segments, every worker logs
    [No text extracted from PDF] as its last action, has performed no
    split, no embedding-model instantiation and no call to the vector
    index, and its processor returns normally, so that the queue records a
    completion and does not retry the job. *)
Theorem empty_extraction_aborts :
  forall ask env path_basename path_join w,
    In w (workers ask env path_basename path_join) ->
    forall job h,
      first extracted (snd (w job h)) = Some [] ->
      settle (fst (w job h)) = Completed /\
      never [Split; Embed; Connect; Append; Create] (snd (w job h)) = true /\
      exists before,
        snd (w job h) =
          before ++ [Ev (ConsoleError [LStr "⚠️ No text extracted from PDF"]) (inr tt)].
Proof.
  intros ask env pb pj w Hw job h.
  each_worker ask env pb pj Hw job h.
  all: cbn [fst snd app first extracted]; try discriminate.
  all: intros _; repeat split; ends_with.
Qed.

Lemma empty_extraction_aborts_witness :
  let w := worker_remote World.blank_pdf World.no_env World.basename World.join in
  first extracted (snd (w World.remote_job [])) = Some [] /\
  settle (fst (w World.remote_job [])) = Completed /\
  never [Split; Embed; Connect; Append; Create] (snd (w World.remote_job [])) = true /\
  exists before,
    snd (w World.remote_job []) =
      before ++ [Ev (ConsoleError [LStr "⚠️ No text extracted from PDF"]) (inr tt)].
Proof.
  intro w. split; [reflexivity |].
  apply (@empty_extraction_aborts World.blank_pdf World.no_env World.basename World.join w).
  - left; reflexivity.
  - reflexivity.
Defined.

(** C1. Once the chunks of a job are ready, the calls a worker makes to the
    vector index are exactly these: first [fromExistingCollection] on the
    collection [pdf-docs] followed, when it succeeds, by [addDocuments] of
    the chunks; then [fromDocuments] with the same chunks if and only if
    one of those two calls threw.  Nothing is asked of the index before
    the append attempt. *)
Theorem upsert_appends_then_creates :
  forall ask env path_basename path_join w,
    In w (workers ask env path_basename path_join) ->
    forall job h chunks emb,
      chunks_ready (snd (w job h)) = Some (chunks, emb) ->
      let calls := filter (among qdrant) (snd (w job h)) in
      collectionName (qdrant_config env) = "pdf-docs" /\
      upsert_calls (qdrant_config env) chunks emb calls /\
      (existsb (of_kind Create) calls = true <->
       existsb (fun ev => among [Connect; Append] ev && negb (succeeded ev)) calls = true).
Proof.
  intros ask env pb pj w Hw job h chunks emb.
  each_worker ask env pb pj Hw job h.
  all: cbn [fst snd app chunks_ready first split_into embedder]; try discriminate.
  all: intros [= <- <-]; no_units.
  all: split; [reflexivity | split; [cbn; constructor | cbn; tauto]].
Qed.

Lemma upsert_appends_then_creates_witness :
  let w := worker_local World.fresh_index World.no_env in
  let chunks := [World.page "page one"; World.page "page two"] in
  let emb := EmbeddingsRef 0 in
  chunks_ready (snd (w World.local_job [])) = Some (chunks, emb) /\
  collectionName (qdrant_config World.no_env) = "pdf-docs" /\
  upsert_calls (qdrant_config World.no_env) chunks emb
    (filter (among qdrant) (snd (w World.local_job []))) /\
  (existsb (of_kind Create) (filter (among qdrant) (snd (w World.local_job []))) = true <->
   existsb (fun ev => among [Connect; Append] ev && negb (succeeded ev))
     (filter (among qdrant) (snd (w World.local_job []))) = true).
Proof.
  intros w chunks emb. split; [reflexivity |].
  apply (@upsert_appends_then_creates World.fresh_index World.no_env
           World.basename World.join w).
  - right; left; reflexivity.
  - reflexivity.
Defined.

(** On an index without the collection, the first job goes through the
    creation and the next one through the append. *)
Example first_job_creates_next_job_appends :
  let w := worker_remote World.fresh_index World.no_env World.basename World.join in
  let first_run := snd (w World.remote_job []) in
  let second_run := snd (w World.remote_job first_run) in
  map kind_of (filter (among qdrant) first_run) = [Connect; Create] /\
  map succeeded (filter (among qdrant) first_run) = [false; true] /\
  map kind_of (filter (among qdrant) second_run) = [Connect; Append] /\
  map succeeded (filter (among qdrant) second_run) = [true; true].
Proof. vm_compute. repeat split. Qed.

(** C4, as the code has it. The processor of every worker returns normally
    whatever happens, so the queue records a completion and never a
    failure.  Every exception raised during processing reaches the outer
    handler, the errors absorbed by the creation fallback apart: the
    worker logs it with [Error processing PDF] as its last action and does
    nothing more, in particular nothing that would undo what was done
    before.  That holds for an error thrown by a call other than the two
    of the append attempt, and for an error the worker raises by itself
    (job data that cannot be read, the URL guard, the base name of a URL
    that is not a string).  When nothing is raised, no such line is
    logged. *)
Theorem failures_are_logged_and_acknowledged :
  forall ask env path_basename path_join w own,
    In (w, own) (workers_and_own_throws ask env path_basename path_join) ->
    forall job h,
      settle (fst (w job h)) = Completed /\
      (forall e,
         first escaping (snd (w job h)) = Some e ->
         exists before failing,
           snd (w job h) = before ++ [failing; error_line e] /\
           thrown failing = Some e /\
           first escaping before = None) /\
      (first escaping (snd (w job h)) = None ->
       match own job with
       | Some e =>
           exists before,
             snd (w job h) = before ++ [error_line e] /\
             first logged_error before = None
       | None => first logged_error (snd (w job h)) = None
       end).
Proof.
  intros ask env pb pj w own Hw job h.
  destruct Hw as [[= <- <-] | [[= <- <-] | [[= <- <-] | []]]];
    unfold own_throw_remote, own_throw_local, no_url_error, error_line;
    [ run_cases ask pb (worker_remote ask env pb pj) job h
    | run_cases ask pb (worker_local ask env) job h
    | run_cases ask pb (worker_local_plain ask env) job h ].
  all: split; [reflexivity | split].
  all: cbn [fst snd app first escaping among existsb kind_of kind_of_call
            kind_eqb thrown orb].
  all: try (intros e; first [discriminate | intros [= <-]; ends_with_two]).
  all: first [discriminate | intros _].
  all: first [reflexivity | ends_with_own].
Qed.

Lemma failures_are_logged_and_acknowledged_witness :
  let w := worker_remote World.obliging World.no_env World.basename World.join in
  let own := own_throw_remote World.basename in
  own Scenario.numeric_url_job = Some (Js.Error "ERR_INVALID_ARG_TYPE" None) /\
  settle (fst (w Scenario.numeric_url_job [])) = Completed /\
  (forall e,
     first escaping (snd (w Scenario.numeric_url_job [])) = Some e ->
     exists before failing,
       snd (w Scenario.numeric_url_job []) = before ++ [failing; error_line e] /\
       thrown failing = Some e /\
       first escaping before = None) /\
  (first escaping (snd (w Scenario.numeric_url_job [])) = None ->
   match own Scenario.numeric_url_job with
   | Some e =>
       exists before,
         snd (w Scenario.numeric_url_job []) = before ++ [error_line e] /\
         first logged_error before = None
   | None => first logged_error (snd (w Scenario.numeric_url_job [])) = None
   end).
Proof.
  intros w own. split; [reflexivity |].
  apply (@failures_are_logged_and_acknowledged World.obliging World.no_env
           World.basename World.join w own).
  left; reflexivity.
Defined.

(** C4, as it is written, fails: the PDF loader throws, and the job is
    acknowledged as completed. *)
Lemma failed_job_is_acknowledged :
  ~ surfaces_failure
      (worker_local (World.failing Extract World.boom) World.no_env)
      World.local_job [].
Proof.
  intro H. specialize (H World.boom eq_refl). discriminate H.
Qed.

(** C5, as the code has it. The remote-download worker deletes a file only
    after a successful index write, and then exactly the temporary file it
    wrote the download to; the local-path workers never delete a file, so
    the uploaded document stays on disk. *)
Theorem only_the_temporary_download_is_deleted :
  forall ask env path_basename path_join job h,
    (let t := snd (worker_remote ask env path_basename path_join job h) in
     if indexed t then
       exists fileUrl base contents r,
         Js.get (job_data job) "url" = inr fileUrl /\
         path_basename fileUrl = inr base /\
         filter (among [WriteFile; Unlink]) t =
           [Ev (WriteFileSync (path_join "/tmp" base) contents) (inr tt);
            Ev (UnlinkSync (path_join "/tmp" base)) r] /\
         indexed (upto Unlink t) = true
     else never [Unlink] t = true) /\
    never [Unlink] (snd (worker_local ask env job h)) = true /\
    never [Unlink] (snd (worker_local_plain ask env job h)) = true.
Proof.
  intros ask env pb pj job h. split; [| split].
  - run_cases ask pb (worker_remote ask env pb pj) job h.
    all: cbn [fst snd app]; no_units.
    all: cbn -[String.append]. all: try reflexivity.
    all: do 4 eexists; repeat split; eassumption.
  - run_cases ask pb (worker_local ask env) job h; reflexivity.
  - run_cases ask pb (worker_local_plain ask env) job h; reflexivity.
Qed.

(** C5, as it is written, fails: the local-path worker indexes the
    document and deletes nothing. *)
Lemma local_upload_is_not_deleted :
  ~ deletes_after_indexing
      (worker_local World.obliging World.no_env) World.local_job [].
Proof.
  intro H. specialize (H eq_refl). discriminate H.
Qed.

(** ** What the workers fix about the splitting

    The splitting itself is done by the library.  The workers fix its
    parameters and its input: the splitter is called at most once per job,
    with chunk size 1000 and overlap 200, on the extracted segments in the
    order the loader returned them. *)
Lemma split_call_is_fixed :
  forall ask env path_basename path_join w,
    In w (workers ask env path_basename path_join) ->
    forall job h,
      match first extracted (snd (w job h)) with
      | Some (d :: ds) =>
          exists r,
            filter (of_kind Split) (snd (w job h)) =
              [Ev (SplitDocuments 1000 200 (d :: ds)) r]
      | _ => filter (of_kind Split) (snd (w job h)) = []
      end.
Proof.
  intros ask env pb pj w Hw job h.
  each_worker ask env pb pj Hw job h.
  all: cbn [fst snd app first extracted]; try reflexivity.
  all: eexists; reflexivity.
Qed.

(** ** Properties of the servers *)

(** C8. An upload request without a file is answered with status 400 and
    nothing else happens: no job is queued and, on the cloud-storage
    server, nothing is sent to Cloudinary. *)
Theorem upload_without_file_is_rejected :
  forall ask u,
    In u (uploads ask) ->
    forall req h,
      file req = None ->
      u req h =
        (inr (mkResponse 400 (Js.Obj [field_str "error" "No file uploaded"])), []).
Proof.
  intros ask u Hu req h Hfile.
  destruct Hu as [<- | [<- | []]]; unfold_run; rewrite Hfile; reflexivity.
Qed.

Lemma upload_without_file_is_rejected_witness :
  file World.no_file = None /\
  upload_pdf_cloud World.obliging World.no_file [] =
    (inr (mkResponse 400 (Js.Obj [field_str "error" "No file uploaded"])), []).
Proof.
  split; [reflexivity |].
  apply (@upload_without_file_is_rejected World.obliging).
  - left; reflexivity.
  - reflexivity.
Defined.

(** C7. A chat request whose query is absent or the empty string is
    refused before the embedding model is instantiated, the index is
    reached or the remote model is called.  When the body can be read and
    holds no [query], or the empty string, the answer is status 400 with
    [Query is required].  When the request has no body to read [query]
    from, the read itself throws: the handler ends with that error and
    has done nothing at all. *)
Theorem chat_without_query_is_rejected :
  forall ask env c,
    In c (chats ask env) ->
    forall req h,
      match Js.get (body req) "query" with
      | inr query => query = Js.Undefined \/ query = Js.Str ""
      | inl _ => True
      end ->
      refused (fst (c req h)) /\
      never [Embed; Connect; Retrieve; ModelCall] (snd (c req h)) = true /\
      match Js.get (body req) "query" with
      | inr _ =>
          fst (c req h) =
            inr (mkResponse 400 (Js.Obj [field_str "error" "Query is required"]))
      | inl e => c req h = (inl e, [])
      end.
Proof.
  intros ask env c Hc req h Hquery.
  destruct Hc as [<- | [<- | []]]; unfold_run;
    destruct (Js.get (body req) "query") as [e | query];
    try (destruct Hquery as [-> | ->]); cbn [negb Js.truthy String.eqb fst snd];
    (split; [cbn; auto | split; reflexivity]).
Qed.

Lemma chat_without_query_is_rejected_witness :
  match Js.get (body World.empty_question) "query" with
  | inr query => query = Js.Undefined \/ query = Js.Str ""
  | inl _ => True
  end /\
  refused (fst (chat_local World.obliging World.no_env World.empty_question [])) /\
  never [Embed; Connect; Retrieve; ModelCall]
    (snd (chat_local World.obliging World.no_env World.empty_question [])) = true /\
  match Js.get (body World.empty_question) "query" with
  | inr _ =>
      fst (chat_local World.obliging World.no_env World.empty_question []) =
        inr (mkResponse 400 (Js.Obj [field_str "error" "Query is required"]))
  | inl e =>
      chat_local World.obliging World.no_env World.empty_question [] = (inl e, [])
  end.
Proof.
  split; [right; reflexivity |].
  apply (@chat_without_query_is_rejected World.obliging World.no_env
           (chat_local World.obliging World.no_env)).
  - right; left; reflexivity.
  - right; reflexivity.
Defined.

(** A request without a body: the read of [query] throws and nothing is
    called. *)
Example chat_without_body_throws :
  exists e,
    chat_cloud World.obliging World.no_env no_body [] = (inl e, []) /\
    chat_local World.obliging World.no_env no_body [] = (inl e, []).
Proof. eexists. split; reflexivity. Qed.



(** The obliging world answers the question with the model's words and the
    two retrieved texts. *)
Example chat_cloud_answers :
  fst (chat_cloud World.obliging World.no_env World.question []) =
    inr (mkResponse 200
           (Js.Obj [("answer", Js.Str "Forty-two.");
                    ("docs", Js.Arr [Js.Obj [field_str "pageContent" "alpha"];
                                     Js.Obj [field_str "pageContent" "beta"]])])).
Proof. reflexivity. Qed.

(** An upstream error payload is passed on in [details]. *)
Example chat_cloud_reports_upstream_payload :
  let upstream := Js.Obj [field_str "message" "Rate limit exceeded"] in
  let e := Js.Error "Request failed with status code 429" (Some upstream) in
  fst (chat_cloud (World.failing ModelCall e) World.no_env World.question []) =
    inr (mkResponse 500
           (Js.Obj [field_str "error" "Internal server error";
                    ("details", upstream)])).
Proof. reflexivity. Qed.

(** ** The system prompt *)

Lemma append_empty_r : forall s : string, (s ++ "")%string = s.
Proof.
  induction s as [| c s IH]; cbn; [reflexivity | now rewrite IH].
Qed.

Lemma append_assoc :
  forall a b c : string, ((a ++ b) ++ c)%string = (a ++ b ++ c)%string.
Proof.
  induction a as [| x a IH]; intros b c; cbn; [reflexivity | now rewrite IH].
Qed.

(** Every element of a joined array occurs in the result. *)
Lemma join_occurs :
  forall sep x xs, In x xs -> occurs x (Js.join sep xs).
Proof.
  intros sep x xs. induction xs as [| y ys IH]; intros Hin.
  - destruct Hin.
  - destruct Hin as [-> | Hin].
    + destruct ys as [| z zs].
      * exists "", "". cbn. now rewrite append_empty_r.
      * exists "", (sep ++ Js.join sep (z :: zs))%string. reflexivity.
    + destruct (IH Hin) as (before & after & Heq).
      destruct ys as [| z zs]; [destruct Hin |].
      exists (y ++ sep ++ before)%string, after.
      change (Js.join sep (y :: z :: zs))
        with (y ++ sep ++ Js.join sep (z :: zs))%string.
      rewrite Heq. now rewrite !append_assoc.
Qed.

Lemma occurs_inside :
  forall needle text before after,
    occurs needle text -> occurs needle (before ++ text ++ after)%string.
Proof.
  intros needle text before after (b & a & ->).
  exists (before ++ b)%string, (a ++ after)%string.
  now rewrite !append_assoc.
Qed.

(** Joining keeps the order of the array: the join of a concatenation is
    the two joins, separated. *)
Lemma join_app :
  forall sep xs ys,
    xs <> [] -> ys <> [] ->
    Js.join sep (xs ++ ys) = (Js.join sep xs ++ sep ++ Js.join sep ys)%string.
Proof.
  intros sep xs ys Hxs Hys. induction xs as [| x xs IH]; [now destruct Hxs |].
  destruct xs as [| x' xs].
  - destruct ys as [| y ys]; [now destruct Hys | reflexivity].
  - change (Js.join sep ((x :: x' :: xs) ++ ys))
      with (x ++ sep ++ Js.join sep ((x' :: xs) ++ ys))%string.
    rewrite IH by discriminate.
    change (Js.join sep (x :: x' :: xs))
      with (x ++ sep ++ Js.join sep (x' :: xs))%string.
    now rewrite !append_assoc.
Qed.

(** The prompt of the cloud-storage server: header, context, footer. *)
Lemma SYSTEM_PROMPT_cloud_shape :
  exists header footer,
    (forall ds,
       SYSTEM_PROMPT_cloud ds =
         (header ++ Js.join nl (map pageContent ds) ++ footer)%string) /\
    occurs "Use the provided documents to answer user queries." header /\
    occurs "Do not mention document sources in your answer." header.
Proof.
  exists (nl ++ "      You are a helpful AI Agent. Use the provided documents to answer user queries."
          ++ nl ++ "      Do not mention document sources in your answer."
          ++ nl ++ "      Context: ")%string,
         (nl ++ "    ")%string.
  repeat split.
  - exists (nl ++ "      You are a helpful AI Agent. ")%string,
           (nl ++ "      Do not mention document sources in your answer."
            ++ nl ++ "      Context: ")%string.
    reflexivity.
  - exists (nl ++ "      You are a helpful AI Agent. Use the provided documents to answer user queries."
            ++ nl ++ "      ")%string,
           (nl ++ "      Context: ")%string.
    reflexivity.
Qed.

(** The prompt of the direct-upload server: header, context, footer. *)
Lemma SYSTEM_PROMPT_local_shape :
  exists header footer,
    (forall ds,
       SYSTEM_PROMPT_local ds =
         (header ++ Js.join nl (map pageContent ds) ++ footer)%string) /\
    occurs "Use the provided documents to answer user queries." header /\
    occurs "dont say in answer about document" header /\
    occurs "only you can answer from docs" header.
Proof.
  exists (nl ++ "      You are a helpful AI Agent. Use the provided documents to answer user queries.dont say in answer about document you get answer be professional"
          ++ nl ++ "      Context, also dont answer question not in docs, only you can answer from docs and basic formal replies: ")%string,
         (nl ++ "    ")%string.
  repeat split.
  - exists (nl ++ "      You are a helpful AI Agent. ")%string,
           ("dont say in answer about document you get answer be professional"
            ++ nl ++ "      Context, also dont answer question not in docs, only you can answer from docs and basic formal replies: ")%string.
    reflexivity.
  - exists (nl ++ "      You are a helpful AI Agent. Use the provided documents to answer user queries.")%string,
           (" you get answer be professional"
            ++ nl ++ "      Context, also dont answer question not in docs, only you can answer from docs and basic formal replies: ")%string.
    reflexivity.
  - exists (nl ++ "      You are a helpful AI Agent. Use the provided documents to answer user queries.dont say in answer about document you get answer be professional"
            ++ nl ++ "      Context, also dont answer question not in docs, ")%string,
           " and basic formal replies: ".
    reflexivity.
Qed.

(** A retrieved text occurs unchanged in a prompt of that shape. *)
Lemma context_occurs :
  forall (prompt : list Document -> string) header footer docs d,
    (forall ds,
       prompt ds = (header ++ Js.join nl (map pageContent ds) ++ footer)%string) ->
    In d docs -> occurs (pageContent d) (prompt docs).
Proof.
  intros prompt header footer docs d Hshape Hd.
  rewrite Hshape. apply occurs_inside, join_occurs, in_map, Hd.
Qed.

(** [includes] finds every occurrence. *)
Lemma starts_with_append :
  forall needle after : string, starts_with needle (needle ++ after) = true.
Proof.
  induction needle as [| c needle IH]; intros after; cbn; [reflexivity |].
  now rewrite Ascii.eqb_refl, IH.
Qed.

Lemma includes_complete :
  forall needle text, occurs needle text -> includes needle text = true.
Proof.
  intros needle text (before & after & ->).
  induction before as [| c before IH].
  - cbn [String.append]. destruct (needle ++ after)%string eqn:Heq;
      cbn [includes]; rewrite <- Heq, starts_with_append; reflexivity.
  - cbn [String.append includes]. rewrite IH. apply Bool.orb_true_r.
Qed.

(** The prompt of the cloud-storage server holds no restricting word. *)
Lemma SYSTEM_PROMPT_cloud_is_unrestricted :
  ~ answers_only_from_context SYSTEM_PROMPT_cloud.
Proof.
  intros (w & Hw & Hocc). apply includes_complete in Hocc.
  repeat (destruct Hw as [<- | Hw]; [vm_compute in Hocc; discriminate Hocc |]).
  destruct Hw.
Qed.

(** The prompt of the direct-upload server says [only]. *)
Lemma SYSTEM_PROMPT_local_is_restricted :
  answers_only_from_context SYSTEM_PROMPT_local.
Proof.
  exists "only". split; [left; reflexivity |].
  exists (nl ++ "      You are a helpful AI Agent. Use the provided documents to answer user queries.dont say in answer about document you get answer be professional"
          ++ nl ++ "      Context, also dont answer question not in docs, ")%string,
         (" you can answer from docs and basic formal replies: " ++ nl ++ "    ")%string.
  reflexivity.
Qed.

(** C9, as the code has it. When a chat request reaches the call to the
    remote model, the messages sent are one system message followed by
    the user's query.  The system message is a fixed header, then the
    texts of the retrieved documents joined by newlines in the order the
    retriever returned them, then a fixed footer; every retrieved text
    occurs in it unchanged.  The header of both servers tells the model to
    use the provided documents and not to speak of them.  Only the prompt
    of the direct-upload server goes on to confine the answers to the
    documents ([only you can answer from docs]); the prompt of the
    cloud-storage server holds no such restriction. *)
Theorem system_prompt_embeds_context :
  forall ask env c prompt,
    In (c, prompt) (prompted_chats ask env) ->
    forall req h target payload,
      first model_request (snd (c req h)) = Some (target, payload) ->
      exists query rt docs,
        Js.get (body req) "query" = inr query /\
        first retrieved (snd (c req h)) = Some (rt, query, docs) /\
        payload =
          Js.Obj [field_str "model" "deepseek/deepseek-chat";
                  ("messages",
                   Js.Arr [Js.Obj [field_str "role" "system";
                                   field_str "content" (prompt docs)];
                           Js.Obj [field_str "role" "user"; ("content", query)]])] /\
        (forall d, In d docs -> occurs (pageContent d) (prompt docs)) /\
        exists header footer,
          (forall ds,
             prompt ds = (header ++ Js.join nl (map pageContent ds) ++ footer)%string) /\
          occurs "Use the provided documents to answer user queries." header /\
          ((prompt = SYSTEM_PROMPT_cloud /\
            occurs "Do not mention document sources in your answer." header /\
            ~ answers_only_from_context prompt)
           \/
           (prompt = SYSTEM_PROMPT_local /\
            occurs "dont say in answer about document" header /\
            occurs "only you can answer from docs" header /\
            answers_only_from_context prompt)).
Proof.
  intros ask env c prompt Hc req h target payload.
  destruct Hc as [[= <- <-] | [[= <- <-] | []]].
  - destruct SYSTEM_PROMPT_cloud_shape as (header & footer & Hshape & Huse & Hnot).
    run_cases ask (@id nat) (chat_cloud ask env) req h.
    all: cbn [fst snd app first model_request retrieved]; try discriminate.
    all: intros [= <- <-]; do 3 eexists.
    all: split; [reflexivity | split; [reflexivity | split; [reflexivity |]]].
    all: split; [intros d Hd; eapply context_occurs; eassumption |].
    all: exists header, footer; split; [exact Hshape | split; [exact Huse |]].
    all: left; split; [reflexivity | split; [exact Hnot |]].
    all: exact SYSTEM_PROMPT_cloud_is_unrestricted.
  - destruct SYSTEM_PROMPT_local_shape
      as (header & footer & Hshape & Huse & Hnot & Honly).
    run_cases ask (@id nat) (chat_local ask env) req h.
    all: cbn [fst snd app first model_request retrieved]; try discriminate.
    all: intros [= <- <-]; do 3 eexists.
    all: split; [reflexivity | split; [reflexivity | split; [reflexivity |]]].
    all: split; [intros d Hd; eapply context_occurs; eassumption |].
    all: exists header, footer; split; [exact Hshape | split; [exact Huse |]].
    all: right; split; [reflexivity | split; [exact Hnot | split; [exact Honly |]]].
    all: exact SYSTEM_PROMPT_local_is_restricted.
Qed.

Lemma system_prompt_embeds_context_witness :
  let c := chat_cloud World.obliging World.no_env in
  let prompt := SYSTEM_PROMPT_cloud in
  let target := "https://openrouter.ai/api/v1/chat/completions" in
  let query := Js.Str "What is the answer?" in
  let payload := completion_request
                   (prompt [World.page "alpha"; World.page "beta"]) query in
  first model_request (snd (c World.question [])) = Some (target, payload) /\
  exists query rt docs,
    Js.get (body World.question) "query" = inr query /\
    first retrieved (snd (c World.question [])) = Some (rt, query, docs) /\
    payload =
      Js.Obj [field_str "model" "deepseek/deepseek-chat";
              ("messages",
               Js.Arr [Js.Obj [field_str "role" "system";
                               field_str "content" (prompt docs)];
                       Js.Obj [field_str "role" "user"; ("content", query)]])] /\
    (forall d, In d docs -> occurs (pageContent d) (prompt docs)) /\
    exists header footer,
      (forall ds,
         prompt ds = (header ++ Js.join nl (map pageContent ds) ++ footer)%string) /\
      occurs "Use the provided documents to answer user queries." header /\
      ((prompt = SYSTEM_PROMPT_cloud /\
        occurs "Do not mention document sources in your answer." header /\
        ~ answers_only_from_context prompt)
       \/
       (prompt = SYSTEM_PROMPT_local /\
        occurs "dont say in answer about document" header /\
        occurs "only you can answer from docs" header /\
        answers_only_from_context prompt)).
Proof.
  intros c prompt target query payload. split; [reflexivity |].
  apply (@system_prompt_embeds_context World.obliging World.no_env c prompt)
    with (h := []) (target := target).
  - left; reflexivity.
  - reflexivity.
Defined.

(** C9, as it is written, fails: the system prompt of the cloud-storage
    server reads, apart from the context, [You are a helpful AI Agent. Use
    the provided documents to answer user queries. Do not mention document
    sources in your answer. Context:], which does not confine the answers
    to the context. *)
Lemma cloud_prompt_does_not_restrict :
  own_words SYSTEM_PROMPT_cloud =
    (nl ++ "      You are a helpful AI Agent. Use the provided documents to answer user queries."
     ++ nl ++ "      Do not mention document sources in your answer."
     ++ nl ++ "      Context: "
     ++ nl ++ "    ")%string /\
  ~ answers_only_from_context SYSTEM_PROMPT_cloud.
Proof.
  split; [reflexivity |].
  intros (w & Hw & Hocc). apply includes_complete in Hocc.
  repeat (destruct Hw as [<- | Hw]; [vm_compute in Hocc; discriminate Hocc |]).
  destruct Hw.
Qed.

(** The prompt the cloud-storage server builds from two retrieved texts. *)
Example SYSTEM_PROMPT_cloud_of_two :
  SYSTEM_PROMPT_cloud [World.page "alpha"; World.page "beta"] =
    (nl ++ "      You are a helpful AI Agent. Use the provided documents to answer user queries."
     ++ nl ++ "      Do not mention document sources in your answer."
     ++ nl ++ "      Context: alpha" ++ nl ++ "beta"
     ++ nl ++ "    ")%string.
Proof. reflexivity. Qed.

(** ** The upload routes *)

(** X1. With a file attached, the cloud-storage upload always answers,
    with status 200 or with status 500 and [Failed to upload file].  When
    it answers 200, the file went to Cloudinary as a raw resource in the
    folder [pdfs], then one job was queued carrying the original file name
    and the [secure_url] Cloudinary returned, and the response repeats
    both. *)
Theorem upload_pdf_cloud_outcome :
  forall ask req h f,
    file req = Some f ->
    exists resp,
      fst (upload_pdf_cloud ask req h) = inr resp /\
      (status resp = 200 \/
       resp = mkResponse 500 (Js.Obj [field_str "error" "Failed to upload file"])) /\
      (status resp = 200 ->
       exists result secure_url,
         Js.get result "secure_url" = inr secure_url /\
         outside (snd (upload_pdf_cloud ask req h)) =
           [Ev (CloudinaryUpload (path f) "raw" "pdfs") (inr result);
            Ev (QueueAdd "file-upload-queue" "file-ready"
                  (Js.Obj [field_str "filename" (originalname f);
                           ("url", secure_url)])) (inr tt)] /\
         json resp =
           Js.Obj [field_str "message" "File uploaded successfully";
                   ("file", Js.Obj [field_str "name" (originalname f);
                                    ("url", secure_url)])]).
Proof.
  intros ask req h f Hfile.
  run_given Hfile ask (upload_pdf_cloud ask) req h.
  all: eexists; split; [reflexivity |].
  all: cbn [fst snd app status json]; no_units.
  all: split; [auto | intros Hs; try discriminate Hs].
  all: do 2 eexists; split; [eassumption | split; reflexivity].
Qed.

Lemma upload_pdf_cloud_outcome_witness :
  file Scenario.upload = Some Scenario.report /\
  exists resp,
    fst (upload_pdf_cloud World.obliging Scenario.upload []) = inr resp /\
    (status resp = 200 \/
     resp = mkResponse 500 (Js.Obj [field_str "error" "Failed to upload file"])) /\
    (status resp = 200 ->
     exists result secure_url,
       Js.get result "secure_url" = inr secure_url /\
       outside (snd (upload_pdf_cloud World.obliging Scenario.upload [])) =
         [Ev (CloudinaryUpload (path Scenario.report) "raw" "pdfs") (inr result);
          Ev (QueueAdd "file-upload-queue" "file-ready"
                (Js.Obj [field_str "filename" (originalname Scenario.report);
                         ("url", secure_url)])) (inr tt)] /\
       json resp =
         Js.Obj [field_str "message" "File uploaded successfully";
                 ("file", Js.Obj [field_str "name" (originalname Scenario.report);
                                  ("url", secure_url)])]).
Proof.
  split; [reflexivity |].
  apply (@upload_pdf_cloud_outcome World.obliging Scenario.upload [] Scenario.report).
  reflexivity.
Defined.

(** X2. With a file attached, when a call of the cloud-storage upload
    throws, be it the upload to Cloudinary or the enqueueing, the error is
    logged as [Cloudinary upload error], nothing more is done and the
    answer is status 500.  A job is queued only after Cloudinary has
    accepted the file. *)
Theorem upload_pdf_cloud_failure :
  forall ask req h f,
    file req = Some f ->
    (forall e,
       first thrown (snd (upload_pdf_cloud ask req h)) = Some e ->
       fst (upload_pdf_cloud ask req h) =
         inr (mkResponse 500 (Js.Obj [field_str "error" "Failed to upload file"])) /\
       exists before failing,
         snd (upload_pdf_cloud ask req h) =
           before ++
           [failing; Ev (ConsoleError [LStr "Cloudinary upload error:"; LErr e]) (inr tt)] /\
         thrown failing = Some e) /\
    (never [Enqueue] (snd (upload_pdf_cloud ask req h)) = true \/
     exists result rest,
       snd (upload_pdf_cloud ask req h) =
         Ev (CloudinaryUpload (path f) "raw" "pdfs") (inr result) :: rest).
Proof.
  intros ask req h f Hfile.
  run_given Hfile ask (upload_pdf_cloud ask) req h.
  all: cbn [fst snd app first thrown].
  all: split;
    [intros e;
     first [discriminate
           | intros [= <-]; split; [reflexivity | ends_with_two]] |].
  all: try (left; reflexivity).
  all: right; do 2 eexists; reflexivity.
Qed.

Lemma upload_pdf_cloud_failure_witness :
  let run := upload_pdf_cloud (World.failing Enqueue Scenario.redis_down)
               Scenario.upload [] in
  file Scenario.upload = Some Scenario.report /\
  (forall e,
     first thrown (snd run) = Some e ->
     fst run =
       inr (mkResponse 500 (Js.Obj [field_str "error" "Failed to upload file"])) /\
     exists before failing,
       snd run =
         before ++
         [failing; Ev (ConsoleError [LStr "Cloudinary upload error:"; LErr e]) (inr tt)] /\
       thrown failing = Some e) /\
  (never [Enqueue] (snd run) = true \/
   exists result rest,
     snd run =
       Ev (CloudinaryUpload (path Scenario.report) "raw" "pdfs") (inr result) :: rest).
Proof.
  intro run. split; [reflexivity |].
  apply (@upload_pdf_cloud_failure (World.failing Enqueue Scenario.redis_down)
           Scenario.upload [] Scenario.report).
  reflexivity.
Defined.

(** X3. With a file attached, the direct-upload route makes exactly one
    call: it queues a job carrying the original name, the destination and
    the path of the stored file.  When that call succeeds the answer is
    status 200 with the name and the path; when it throws, nothing catches
    the error: the handler rejects with it and no response is sent. *)
Theorem upload_pdf_local_outcome :
  forall ask req h f,
    file req = Some f ->
    exists r,
      snd (upload_pdf_local ask req h) =
        [Ev (QueueAdd "file-upload-queue" "file-ready"
               (Js.Obj [field_str "filename" (originalname f);
                        field_str "destination" (destination f);
                        field_str "path" (path f)])) r] /\
      fst (upload_pdf_local ask req h) =
        match r with
        | inl e => inl e
        | inr _ =>
            inr (mkResponse 200
                   (Js.Obj [field_str "message" "File uploaded successfully";
                            ("file", Js.Obj [field_str "name" (originalname f);
                                             field_str "path" (path f)])]))
        end.
Proof.
  intros ask req h f Hfile.
  run_given Hfile ask (upload_pdf_local ask) req h.
  all: eexists; split; reflexivity.
Qed.

Lemma upload_pdf_local_outcome_witness :
  let run := upload_pdf_local (World.failing Enqueue Scenario.redis_down)
               Scenario.upload [] in
  file Scenario.upload = Some Scenario.report /\
  exists r,
    snd run =
      [Ev (QueueAdd "file-upload-queue" "file-ready"
             (Js.Obj [field_str "filename" (originalname Scenario.report);
                      field_str "destination" (destination Scenario.report);
                      field_str "path" (path Scenario.report)])) r] /\
    fst run =
      match r with
      | inl e => inl e
      | inr _ =>
          inr (mkResponse 200
                 (Js.Obj [field_str "message" "File uploaded successfully";
                          ("file", Js.Obj [field_str "name" (originalname Scenario.report);
                                           field_str "path" (path Scenario.report)])]))
      end.
Proof.
  intro run. split; [reflexivity |].
  apply (@upload_pdf_local_outcome (World.failing Enqueue Scenario.redis_down)
           Scenario.upload [] Scenario.report).
  reflexivity.
Defined.

(** ** The chat routes *)

(** X4. The query guard of the chat routes is a truthiness test: whatever
    the body holds under [query], the answer is status 400 exactly when
    that value is falsy (absent, [null], [false], [0] or the empty
    string), and then nothing outside the process was called. *)
Theorem chat_guard_is_truthiness :
  forall ask env c,
    In c (chats ask env) ->
    forall req h query,
      Js.get (body req) "query" = inr query ->
      exists resp,
        fst (c req h) = inr resp /\
        (status resp = 400 <-> Js.truthy query = false) /\
        (Js.truthy query = false ->
         outside (snd (c req h)) = [] /\
         json resp = Js.Obj [field_str "error" "Query is required"]).
Proof.
  intros ask env c Hc req h query Hq.
  destruct Hc as [<- | [<- | []]].
  - run_given Hq ask (chat_cloud ask env) req h.
    all: eexists; split; [reflexivity |]; cbn [fst snd app status json].
    all: split; [split; intros; first [reflexivity | discriminate]
                | intros; first [discriminate | split; reflexivity]].
  - run_given Hq ask (chat_local ask env) req h.
    all: eexists; split; [reflexivity |]; cbn [fst snd app status json].
    all: split; [split; intros; first [reflexivity | discriminate]
                | intros; first [discriminate | split; reflexivity]].
Qed.

Lemma chat_guard_is_truthiness_witness :
  let c := chat_cloud World.obliging World.no_env in
  Js.get (body Scenario.null_query) "query" = inr Js.Null /\
  exists resp,
    fst (c Scenario.null_query []) = inr resp /\
    (status resp = 400 <-> Js.truthy Js.Null = false) /\
    (Js.truthy Js.Null = false ->
     outside (snd (c Scenario.null_query [])) = [] /\
     json resp = Js.Obj [field_str "error" "Query is required"]).
Proof.
  intro c. split; [reflexivity |].
  apply (@chat_guard_is_truthiness World.obliging World.no_env c).
  - left; reflexivity.
  - reflexivity.
Defined.

(** X5. A chat request goes through its calls in one order: embedding
    model, connection to the collection, retrieval, remote model.  Each
    call is made only when the previous one succeeded, and every request
    that retrieves has instantiated the model and connected anew. *)
Theorem chat_calls_in_order :
  forall ask env c,
    In c (chats ask env) ->
    forall req h,
      is_prefix (map kind_of (outside (snd (c req h)))) chat_order = true /\
      forallb succeeded (removelast (outside (snd (c req h)))) = true.
Proof.
  intros ask env c Hc req h.
  destruct Hc as [<- | [<- | []]].
  - run_cases ask (@id nat) (chat_cloud ask env) req h; split; reflexivity.
  - run_cases ask (@id nat) (chat_local ask env) req h; split; reflexivity.
Qed.

Lemma chat_calls_in_order_witness :
  let c := chat_local (World.failing Retrieve World.boom) World.no_env in
  is_prefix (map kind_of (outside (snd (c World.question [])))) chat_order = true /\
  forallb succeeded (removelast (outside (snd (c World.question [])))) = true.
Proof.
  intro c.
  apply (@chat_calls_in_order (World.failing Retrieve World.boom) World.no_env c).
  right; left; reflexivity.
Defined.

(** X6. Every call to the remote model goes to the OpenRouter completions
    endpoint with four headers.  The bearer token is the value of
    [DEEPSEEK_API_KEY], and the text [undefined] when the variable is not
    set; referer and title fall back to their defaults when [SITE_URL] and
    [APP_NAME] are unset or empty. *)
Theorem model_call_headers :
  forall ask env c,
    In c (chats ask env) ->
    forall req h target headers,
      first model_headers (snd (c req h)) = Some (target, headers) ->
      target = "https://openrouter.ai/api/v1/chat/completions" /\
      headers =
        [("Authorization",
          ("Bearer " ++ match env "DEEPSEEK_API_KEY" with
                        | Some key => key
                        | None => "undefined"
                        end)%string);
         ("HTTP-Referer",
          match env "SITE_URL" with
          | Some "" | None => "http://localhost:3000"
          | Some site => site
          end);
         ("X-Title",
          match env "APP_NAME" with
          | Some "" | None => "RAG Application"
          | Some name => name
          end);
         ("Content-Type", "application/json")].
Proof.
  intros ask env c Hc req h target headers.
  assert (Hh : completion_headers env =
    [("Authorization",
      ("Bearer " ++ match env "DEEPSEEK_API_KEY" with
                    | Some key => key
                    | None => "undefined"
                    end)%string);
     ("HTTP-Referer",
      match env "SITE_URL" with
      | Some "" | None => "http://localhost:3000"
      | Some site => site
      end);
     ("X-Title",
      match env "APP_NAME" with
      | Some "" | None => "RAG Application"
      | Some name => name
      end);
     ("Content-Type", "application/json")]).
  { unfold completion_headers, env_text, env_or.
    destruct (env "SITE_URL") as [[| a s] |];
      destruct (env "APP_NAME") as [[| a' s'] |]; reflexivity. }
  destruct Hc as [<- | [<- | []]].
  - run_cases ask (@id nat) (chat_cloud ask env) req h.
    all: cbn [fst snd app first model_headers]; try discriminate.
    all: intros [= <- <-]; split; [reflexivity | exact Hh].
  - run_cases ask (@id nat) (chat_local ask env) req h.
    all: cbn [fst snd app first model_headers]; try discriminate.
    all: intros [= <- <-]; split; [reflexivity | exact Hh].
Qed.

Lemma model_call_headers_witness :
  let c := chat_cloud World.obliging World.no_env in
  let target := "https://openrouter.ai/api/v1/chat/completions" in
  let headers :=
    [("Authorization", "Bearer undefined");
     ("HTTP-Referer", "http://localhost:3000");
     ("X-Title", "RAG Application");
     ("Content-Type", "application/json")] in
  first model_headers (snd (c World.question [])) = Some (target, headers) /\
  target = "https://openrouter.ai/api/v1/chat/completions" /\
  headers =
    [("Authorization", "Bearer undefined");
     ("HTTP-Referer", "http://localhost:3000");
     ("X-Title", "RAG Application");
     ("Content-Type", "application/json")].
Proof.
  intros c target headers. split; [reflexivity |].
  apply (@model_call_headers World.obliging World.no_env c
           (or_introl eq_refl) World.question [] target headers).
  reflexivity.
Defined.



(** X9. The routes of both servers leave the file system and the
    contents of the index alone: an upload route only calls Cloudinary and
    the queue, so the file multer stored is never deleted; a chat route
    never writes to the index, never queues a job and touches no file. *)
Theorem routes_keep_to_their_calls :
  forall ask env req h,
    (forall u, In u (uploads ask) ->
       never [Download; ModelCall; WriteFile; Unlink; Extract; Split; Embed;
              Connect; Append; Create; Retrieve] (snd (u req h)) = true) /\
    (forall c, In c (chats ask env) ->
       never [Download; WriteFile; Unlink; Extract; Split; Append; Create;
              CloudUpload; Enqueue] (snd (c req h)) = true).
Proof.
  intros ask env req h. split.
  - intros u [<- | [<- | []]].
    + destruct (file req) eqn:Hfile.
      * run_given Hfile ask (upload_pdf_cloud ask) req h; reflexivity.
      * run_given Hfile ask (upload_pdf_cloud ask) req h; reflexivity.
    + destruct (file req) eqn:Hfile.
      * run_given Hfile ask (upload_pdf_local ask) req h; reflexivity.
      * run_given Hfile ask (upload_pdf_local ask) req h; reflexivity.
  - intros c [<- | [<- | []]].
    + run_cases ask (@id nat) (chat_cloud ask env) req h; reflexivity.
    + run_cases ask (@id nat) (chat_local ask env) req h; reflexivity.
Qed.

(** X10. Workers and chat routes address the same index: every call that
    names a collection, whether a worker connects to it or creates it or a
    chat route connects to it, is given the collection [pdf-docs], the key
    of [QDRANT_API_KEY] and the address of [QDRANT_URL], which is
    [http://localhost:6333] when the variable is unset or empty. *)
Theorem one_index_for_all :
  forall ask env path_basename path_join,
    let cfg :=
      {| url := match env "QDRANT_URL" with
                | Some "" | None => "http://localhost:6333"
                | Some address => address
                end;
         apiKey := env "QDRANT_API_KEY";
         collectionName := "pdf-docs" |} in
    (forall w job h,
       In w (workers ask env path_basename path_join) ->
       Forall (eq cfg) (collect config_of (snd (w job h)))) /\
    (forall c req h,
       In c (chats ask env) ->
       Forall (eq cfg) (collect config_of (snd (c req h)))).
Proof.
  intros ask env pb pj cfg.
  assert (Hcfg : qdrant_config env = cfg).
  { unfold qdrant_config, env_or, cfg.
    destruct (env "QDRANT_URL") as [[| a s] |]; reflexivity. }
  clearbody cfg. split.
  - intros w job h Hw. each_worker ask env pb pj Hw job h.
    all: cbn [fst snd app collect config_of]; rewrite ?Hcfg.
    all: repeat constructor.
  - intros c req h [<- | [<- | []]].
    + run_cases ask (@id nat) (chat_cloud ask env) req h.
      all: cbn [fst snd app collect config_of]; rewrite ?Hcfg.
      all: repeat constructor.
    + run_cases ask (@id nat) (chat_local ask env) req h.
      all: cbn [fst snd app collect config_of]; rewrite ?Hcfg.
      all: repeat constructor.
Qed.

(** ** More on the workers *)

(** The first thing the remote-download worker does with a job. *)
Lemma worker_remote_first_call :
  forall ask env path_basename path_join job h,
    match Js.get (job_data job) "url" with
    | inr fileUrl =>
        if Js.truthy fileUrl then
          exists r rest,
            outside (snd (worker_remote ask env path_basename path_join job h)) =
              Ev (AxiosGet fileUrl "arraybuffer") r :: rest
        else
          worker_remote ask env path_basename path_join job h =
            (inr tt,
             [Ev (ConsoleLog [LStr "📄 Processing job:"; LVal (job_data job)]) (inr tt);
              Ev (ConsoleError
                    [LStr "❌ Error processing PDF:";
                     LErr (Js.Error "No file URL provided in job data" None)])
                 (inr tt)])
    | inl e =>
        worker_remote ask env path_basename path_join job h =
          (inr tt,
           [Ev (ConsoleLog [LStr "📄 Processing job:"; LVal (job_data job)]) (inr tt);
            Ev (ConsoleError [LStr "❌ Error processing PDF:"; LErr e]) (inr tt)])
    end.
Proof.
  intros ask env pb pj job h.
  destruct (Js.get (job_data job) "url") as [e | fileUrl] eqn:Hurl.
  - unfold_run. rewrite Hurl. reflexivity.
  - destruct (Js.truthy fileUrl) eqn:Htruthy.
    + destruct (worker_remote ask env pb pj job h) as [r t] eqn:Hrun; revert Hrun.
      unfold_run. rewrite Hurl. unfold_run. rewrite Htruthy.
      run_all ask pb; intros [= <- <-].
      all: do 2 eexists; reflexivity.
    + unfold_run. rewrite Hurl. unfold_run. rewrite Htruthy. reflexivity.
Qed.

(** The first thing a local-path worker does with a job. *)
Lemma worker_local_first_call :
  forall ask env connecting job h,
    match Js.get (job_data job) "path" with
    | inr pdfPath =>
        exists r rest,
          outside (snd (worker_local_with ask env connecting job h)) =
            Ev (PdfLoad pdfPath) r :: rest
    | inl e =>
        worker_local_with ask env connecting job h =
          (inr tt,
           [Ev (ConsoleLog [LStr "📄 Processing job:"; LVal (job_data job)]) (inr tt);
            Ev (ConsoleError [LStr "❌ Error processing PDF:"; LErr e]) (inr tt)])
    end.
Proof.
  intros ask env connecting job h.
  destruct (Js.get (job_data job) "path") as [e | pdfPath] eqn:Hpath.
  - unfold_run. rewrite Hpath. reflexivity.
  - destruct (worker_local_with ask env connecting job h) as [r t] eqn:Hrun;
      revert Hrun.
    unfold_run. rewrite Hpath. destruct connecting.
    all: run_all ask (@id nat); intros [= <- <-].
    all: do 2 eexists; reflexivity.
Qed.

(** X11. The guard of the remote-download worker is a truthiness test on
    [job.data.url].  A truthy value is downloaded first, as an array
    buffer.  Any falsy value (absent, [null], [0], the empty string) ends
    the job with [No file URL provided in job data], and job data that is
    [null] or [undefined] ends it with the type error of the property
    read; in both cases nothing but the two console lines happens and the
    processor returns normally. *)
Theorem worker_remote_guard :
  forall ask env path_basename path_join job h,
    match Js.get (job_data job) "url" with
    | inr fileUrl =>
        if Js.truthy fileUrl then
          exists r rest,
            outside (snd (worker_remote ask env path_basename path_join job h)) =
              Ev (AxiosGet fileUrl "arraybuffer") r :: rest
        else
          worker_remote ask env path_basename path_join job h =
            (inr tt,
             [Ev (ConsoleLog [LStr "📄 Processing job:"; LVal (job_data job)]) (inr tt);
              Ev (ConsoleError
                    [LStr "❌ Error processing PDF:";
                     LErr (Js.Error "No file URL provided in job data" None)])
                 (inr tt)])
    | inl e =>
        worker_remote ask env path_basename path_join job h =
          (inr tt,
           [Ev (ConsoleLog [LStr "📄 Processing job:"; LVal (job_data job)]) (inr tt);
            Ev (ConsoleError [LStr "❌ Error processing PDF:"; LErr e]) (inr tt)])
    end.
Proof. exact worker_remote_first_call. Qed.

(** X12. The local-path workers have no guard on [job.data.path]: whatever
    the job holds there, [undefined] included, is handed to the PDF loader
    as the first call.  Only job data that is itself [null] or [undefined]
    ends the job before it, with the type error of the property read. *)
Theorem worker_local_has_no_guard :
  forall ask env w,
    In w [worker_local ask env; worker_local_plain ask env] ->
    forall job h,
      match Js.get (job_data job) "path" with
      | inr pdfPath =>
          exists r rest, outside (snd (w job h)) = Ev (PdfLoad pdfPath) r :: rest
      | inl e =>
          w job h =
            (inr tt,
             [Ev (ConsoleLog [LStr "📄 Processing job:"; LVal (job_data job)]) (inr tt);
              Ev (ConsoleError [LStr "❌ Error processing PDF:"; LErr e]) (inr tt)])
      end.
Proof.
  intros ask env w [<- | [<- | []]] job h; apply worker_local_first_call.
Qed.

Lemma worker_local_has_no_guard_witness :
  exists r rest,
    outside (snd (worker_local World.obliging World.no_env Scenario.no_path_job [])) =
      Ev (PdfLoad Js.Undefined) r :: rest.
Proof.
  apply (@worker_local_has_no_guard World.obliging World.no_env
           (worker_local World.obliging World.no_env)
           (or_introl eq_refl) Scenario.no_path_job []).
Defined.

(** X13. In the remote-download worker the PDF that is parsed is the
    download: whenever the loader is called, the job's URL was fetched
    successfully, the bytes received were written to the join of [/tmp]
    and the base name of the URL, and the loader is given that path. *)
Theorem worker_remote_parses_the_download :
  forall ask env path_basename path_join job h loaded,
    first loaded_from (snd (worker_remote ask env path_basename path_join job h))
      = Some loaded ->
    exists fileUrl response base r rest,
      Js.get (job_data job) "url" = inr fileUrl /\
      path_basename fileUrl = inr base /\
      loaded = Js.Str (path_join "/tmp" base) /\
      outside (snd (worker_remote ask env path_basename path_join job h)) =
        Ev (AxiosGet fileUrl "arraybuffer") (inr response)
        :: Ev (WriteFileSync (path_join "/tmp" base) (data response)) (inr tt)
        :: Ev (PdfLoad loaded) r
        :: rest.
Proof.
  intros ask env pb pj job h loaded.
  run_cases ask pb (worker_remote ask env pb pj) job h.
  all: cbn [fst snd app first loaded_from]; try discriminate.
  all: intros [= <-]; no_units.
  all: do 5 eexists; split; [reflexivity |]; split; [eassumption |];
       split; reflexivity.
Qed.

Lemma worker_remote_parses_the_download_witness :
  let run := worker_remote World.obliging World.no_env World.basename World.join
               World.remote_job [] in
  first loaded_from (snd run) = Some (Js.Str "/tmp/report.pdf") /\
  exists fileUrl response base r rest,
    Js.get (job_data World.remote_job) "url" = inr fileUrl /\
    World.basename fileUrl = inr base /\
    Js.Str "/tmp/report.pdf" = Js.Str (World.join "/tmp" base) /\
    outside (snd run) =
      Ev (AxiosGet fileUrl "arraybuffer") (inr response)
      :: Ev (WriteFileSync (World.join "/tmp" base) (data response)) (inr tt)
      :: Ev (PdfLoad (Js.Str "/tmp/report.pdf")) r
      :: rest.
Proof.
  intro run. split; [reflexivity |].
  apply (@worker_remote_parses_the_download World.obliging World.no_env
           World.basename World.join World.remote_job []).
  reflexivity.
Defined.

(** ** Upload and worker together *)

(** The job the cloud-storage upload queues. *)
Lemma upload_pdf_cloud_job :
  forall ask req h queue name jobdata,
    first enqueued (snd (upload_pdf_cloud ask req h)) = Some (queue, name, jobdata) ->
    queue = "file-upload-queue" /\
    name = "file-ready" /\
    exists f result secure_url,
      file req = Some f /\
      first cloud_accepted (snd (upload_pdf_cloud ask req h)) = Some (path f, result) /\
      Js.get result "secure_url" = inr secure_url /\
      jobdata = Js.Obj [field_str "filename" (originalname f); ("url", secure_url)].
Proof.
  intros ask req h queue name jobdata.
  destruct (file req) as [f |] eqn:Hfile.
  - run_given Hfile ask (upload_pdf_cloud ask) req h.
    all: cbn [fst snd app first enqueued cloud_accepted]; try discriminate.
    all: intros [= <- <- <-]; split; [reflexivity | split; [reflexivity |]].
    all: do 3 eexists; split; [reflexivity |]; split; [reflexivity |];
         split; [eassumption | reflexivity].
  - run_given Hfile ask (upload_pdf_cloud ask) req h.
    cbn [fst snd first]. discriminate.
Qed.

(** The job the direct-upload route queues. *)
Lemma upload_pdf_local_job :
  forall ask req h queue name jobdata,
    first enqueued (snd (upload_pdf_local ask req h)) = Some (queue, name, jobdata) ->
    queue = "file-upload-queue" /\
    name = "file-ready" /\
    exists f,
      file req = Some f /\
      jobdata = Js.Obj [field_str "filename" (originalname f);
                        field_str "destination" (destination f);
                        field_str "path" (path f)].
Proof.
  intros ask req h queue name jobdata.
  destruct (file req) as [f |] eqn:Hfile.
  - run_given Hfile ask (upload_pdf_local ask) req h.
    all: cbn [fst snd app first enqueued]; try discriminate.
    all: intros [= <- <- <-]; split; [reflexivity | split; [reflexivity |]].
    all: exists f; split; reflexivity.
  - run_given Hfile ask (upload_pdf_local ask) req h.
    cbn [fst snd first]. discriminate.
Qed.

(** X14. Whatever job the cloud-storage upload queues, it queues it on
    [file-upload-queue] under the name [file-ready] after Cloudinary
    accepted the file, with the [secure_url] of Cloudinary's answer as
    [url]; the remote-download worker given that job downloads this very
    URL first.  When Cloudinary's answer has no truthy [secure_url] the job
    is queued all the same, and the worker ends it with
    [No file URL provided in job data] without calling anything. *)
Theorem cloud_upload_then_remote_worker :
  forall ask req h queue name jobdata,
    first enqueued (snd (upload_pdf_cloud ask req h)) = Some (queue, name, jobdata) ->
    queue = "file-upload-queue" /\
    name = "file-ready" /\
    exists f result secure_url,
      file req = Some f /\
      first cloud_accepted (snd (upload_pdf_cloud ask req h)) = Some (path f, result) /\
      Js.get result "secure_url" = inr secure_url /\
      forall ask' env path_basename path_join h',
        let run := worker_remote ask' env path_basename path_join (mkJob jobdata) h' in
        if Js.truthy secure_url then
          exists r rest,
            outside (snd run) = Ev (AxiosGet secure_url "arraybuffer") r :: rest
        else
          outside (snd run) = [] /\
          first logged_error (snd run) =
            Some (Js.Error "No file URL provided in job data" None).
Proof.
  intros ask req h queue name jobdata Hjob.
  destruct (upload_pdf_cloud_job _ _ _ Hjob)
    as (Hq & Hn & f & result & secure_url & Hfile & Hcloud & Hurl & ->).
  split; [exact Hq | split; [exact Hn |]].
  exists f, result, secure_url.
  split; [exact Hfile | split; [exact Hcloud | split; [exact Hurl |]]].
  intros ask' env pb pj h' run. subst run.
  pose proof (worker_remote_first_call ask' env pb pj
                (mkJob (Js.Obj [field_str "filename" (originalname f);
                                ("url", secure_url)])) h') as Hw.
  change (Js.get (job_data (mkJob (Js.Obj [field_str "filename" (originalname f);
                                           ("url", secure_url)]))) "url")
    with (@inr Js.error Js.value secure_url) in Hw.
  cbv beta iota in Hw.
  destruct (Js.truthy secure_url); [exact Hw |].
  rewrite Hw. split; reflexivity.
Qed.

Lemma cloud_upload_then_remote_worker_witness :
  let jobdata := Js.Obj [field_str "filename" "report.pdf"; ("url", Js.Undefined)] in
  first enqueued (snd (upload_pdf_cloud Scenario.no_secure_url Scenario.upload [])) =
    Some ("file-upload-queue", "file-ready", jobdata) /\
  "file-upload-queue" = "file-upload-queue" /\
  "file-ready" = "file-ready" /\
  exists f result secure_url,
    file Scenario.upload = Some f /\
    first cloud_accepted (snd (upload_pdf_cloud Scenario.no_secure_url Scenario.upload []))
      = Some (path f, result) /\
    Js.get result "secure_url" = inr secure_url /\
    forall ask' env path_basename path_join h',
      let run := worker_remote ask' env path_basename path_join (mkJob jobdata) h' in
      if Js.truthy secure_url then
        exists r rest,
          outside (snd run) = Ev (AxiosGet secure_url "arraybuffer") r :: rest
      else
        outside (snd run) = [] /\
        first logged_error (snd run) =
          Some (Js.Error "No file URL provided in job data" None).
Proof.
  intro jobdata. split; [reflexivity |].
  apply (@cloud_upload_then_remote_worker Scenario.no_secure_url Scenario.upload []).
  reflexivity.
Defined.

(** X15. Whatever job the direct-upload route queues, it queues it on
    [file-upload-queue] under the name [file-ready] with the path multer
    stored the file at; a local-path worker given that job hands exactly
    this path to the PDF loader as its first call. *)
Theorem local_upload_then_local_worker :
  forall ask req h queue name jobdata,
    first enqueued (snd (upload_pdf_local ask req h)) = Some (queue, name, jobdata) ->
    queue = "file-upload-queue" /\
    name = "file-ready" /\
    exists f,
      file req = Some f /\
      Js.get jobdata "filename" = inr (Js.Str (originalname f)) /\
      forall ask' env w h',
        In w [worker_local ask' env; worker_local_plain ask' env] ->
        exists r rest,
          outside (snd (w (mkJob jobdata) h')) =
            Ev (PdfLoad (Js.Str (path f))) r :: rest.
Proof.
  intros ask req h queue name jobdata Hjob.
  destruct (upload_pdf_local_job _ _ _ Hjob) as (Hq & Hn & f & Hfile & ->).
  split; [exact Hq | split; [exact Hn |]].
  exists f. split; [exact Hfile | split; [reflexivity |]].
  intros ask' env w h' [<- | [<- | []]].
  - exact (worker_local_first_call ask' env true
             (mkJob (Js.Obj [field_str "filename" (originalname f);
                             field_str "destination" (destination f);
                             field_str "path" (path f)])) h').
  - exact (worker_local_first_call ask' env false
             (mkJob (Js.Obj [field_str "filename" (originalname f);
                             field_str "destination" (destination f);
                             field_str "path" (path f)])) h').
Qed.

Lemma local_upload_then_local_worker_witness :
  let jobdata :=
    Js.Obj [field_str "filename" "report.pdf";
            field_str "destination" "uploads/";
            field_str "path" "uploads/report.pdf-17-42"] in
  first enqueued (snd (upload_pdf_local World.obliging Scenario.upload [])) =
    Some ("file-upload-queue", "file-ready", jobdata) /\
  "file-upload-queue" = "file-upload-queue" /\
  "file-ready" = "file-ready" /\
  exists f,
    file Scenario.upload = Some f /\
    Js.get jobdata "filename" = inr (Js.Str (originalname f)) /\
    forall ask' env w h',
      In w [worker_local ask' env; worker_local_plain ask' env] ->
      exists r rest,
        outside (snd (w (mkJob jobdata) h')) =
          Ev (PdfLoad (Js.Str (path f))) r :: rest.
Proof.
  intro jobdata. split; [reflexivity |].
  apply (@local_upload_then_local_worker World.obliging Scenario.upload []).
  reflexivity.
Defined.

(** ** The workers' calls *)



(** X17. A job writes to the index successfully at most once: of the calls
    [addDocuments] and [fromDocuments] of one run, no more than one
    succeeds. *)
Theorem worker_writes_at_most_once :
  forall ask env path_basename path_join w,
    In w (workers ask env path_basename path_join) ->
    forall job h,
      length (index_writes (snd (w job h))) <= 1.
Proof.
  intros ask env pb pj w Hw job h.
  each_worker ask env pb pj Hw job h.
  all: cbn [fst snd app]; no_units; cbn; auto.
Qed.

Lemma worker_writes_at_most_once_witness :
  length (index_writes
            (snd (worker_local World.fresh_index World.no_env World.local_job [])))
    <= 1.
Proof.
  apply (@worker_writes_at_most_once World.fresh_index World.no_env
           World.basename World.join
           (worker_local World.fresh_index World.no_env)).
  right; left; reflexivity.
Defined.

(** X18. A worker never queues a job, uploads to Cloudinary, queries the
    index or calls the remote model; the local-path workers also download
    nothing and write no file. *)
Theorem worker_keeps_to_its_calls :
  forall ask env path_basename path_join job h,
    (forall w,
       In w (workers ask env path_basename path_join) ->
       never [ModelCall; Retrieve; CloudUpload; Enqueue] (snd (w job h)) = true) /\
    (forall w,
       In w [worker_local ask env; worker_local_plain ask env] ->
       never [Download; WriteFile] (snd (w job h)) = true).
Proof.
  intros ask env pb pj job h.
  assert (Hremote :
    never [ModelCall; Retrieve; CloudUpload; Enqueue]
      (snd (worker_remote ask env pb pj job h)) = true).
  { run_cases ask pb (worker_remote ask env pb pj) job h; reflexivity. }
  assert (Hlocal : forall connecting,
    never [ModelCall; Retrieve; CloudUpload; Enqueue; Download; WriteFile]
      (snd (worker_local_with ask env connecting job h)) = true).
  { intros connecting.
    destruct (worker_local_with ask env connecting job h) as [r t] eqn:Hrun;
      revert Hrun.
    destruct connecting; run_all ask pb; intros [= <- <-]; reflexivity. }
  assert (Hweaken : forall t,
    never [ModelCall; Retrieve; CloudUpload; Enqueue; Download; WriteFile] t = true ->
    never [ModelCall; Retrieve; CloudUpload; Enqueue] t = true /\
    never [Download; WriteFile] t = true).
  { induction t as [| ev t IH]; [split; reflexivity |].
    cbn. destruct (kind_of ev); cbn; try discriminate; exact IH. }
  split.
  - intros w [<- | [<- | [<- | []]]];
      [exact Hremote | apply Hweaken, Hlocal | apply Hweaken, Hlocal].
  - intros w [<- | [<- | []]]; apply Hweaken, Hlocal.
Qed.

(** ** multer's file names *)

(** Two texts that end with a dash and a dash-free tail are cut at the
    same place. *)
Lemma last_dash_cut :
  forall x y a b : string,
    dash_free a -> dash_free b ->
    (x ++ "-" ++ a)%string = (y ++ "-" ++ b)%string ->
    x = y /\ a = b.
Proof.
  induction x as [| c x IH]; intros [| c' y] a b Ha Hb Heq; cbn in Heq.
  - injection Heq as ->. split; reflexivity.
  - injection Heq as <- Heq. exfalso. exact (Ha y b Heq).
  - injection Heq as -> Heq. exfalso. symmetry in Heq. exact (Hb x a Heq).
  - injection Heq as <- Heq. destruct (IH y a b Ha Hb Heq) as [-> ->].
    split; reflexivity.
Qed.

(** The decimal text of a number holds no dash. *)
Lemma of_nat_dash_free : forall n, dash_free (Js.of_nat n).
Proof.
  intros n. unfold Js.of_nat. generalize (Nat.to_uint n) as d.
  induction d as [| d IH | d IH | d IH | d IH | d IH | d IH | d IH | d IH | d IH | d IH];
    intros [| c before] after Heq; cbn in Heq; try discriminate Heq.
  all: injection Heq as _ Heq; exact (IH before after Heq).
Qed.

(** Distinct numbers have distinct decimal texts. *)
Lemma of_nat_inj : forall n m, Js.of_nat n = Js.of_nat m -> n = m.
Proof.
  intros n m Heq. unfold Js.of_nat in Heq.
  apply DecimalNat.Unsigned.to_uint_inj.
  apply (f_equal NilEmpty.uint_of_string) in Heq.
  rewrite !NilEmpty.usu in Heq. now injection Heq.
Qed.

(** X19. The name multer stores an upload under determines the original
    file name, the time stamp and the random number it was built from:
    two uploads get the same stored name only if all three agree.  Two
    uploads of one file therefore collide exactly when they fall in the
    same millisecond and draw the same random number. *)
Theorem storage_filename_inj :
  forall originalname originalname' now now' rnd rnd',
    storage_filename originalname now rnd = storage_filename originalname' now' rnd' ->
    originalname = originalname' /\ now = now' /\ rnd = rnd'.
Proof.
  intros o o' n n' r r' Heq. unfold storage_filename, uniqueSuffix in Heq.
  assert (Hcut : forall a b c : string,
            (a ++ "-" ++ b ++ "-" ++ c)%string = ((a ++ "-" ++ b) ++ "-" ++ c)%string).
  { intros a b c. now rewrite !append_assoc. }
  rewrite !Hcut in Heq.
  apply last_dash_cut in Heq; try apply of_nat_dash_free.
  destruct Heq as [Heq Hr].
  apply last_dash_cut in Heq; try apply of_nat_dash_free.
  destruct Heq as [-> Hn].
  repeat split; [apply of_nat_inj, Hn | apply of_nat_inj, Hr].
Qed.

Lemma storage_filename_inj_witness :
  storage_filename "report.pdf" 17 42 = "report.pdf-17-42" /\
  "report.pdf" = "report.pdf" /\ 17 = 17 /\ 42 = 42.
Proof.
  split; [reflexivity |].
  apply (@storage_filename_inj "report.pdf" "report.pdf" 17 17 42 42).
  reflexivity.
Defined.

(** ** What the direct-upload chat route writes to the console *)

(** X20. Whenever the request has a body to read [query] from, the
    direct-upload chat route writes the value of [DEEPSEEK_API_KEY] to the
    console as its first action, before the query guard, so also for a
    request it answers with status 400.  When the request has no body the
    read of [query] throws before that line and nothing is written.  The
    cloud-storage chat route writes nothing to the console unless it
    answers 500. *)
Theorem chat_local_logs_the_api_key :
  forall ask env req h,
    match Js.get (body req) "query" with
    | inr _ =>
        exists rest,
          snd (chat_local ask env req h) =
            Ev (ConsoleLog [LEnv (env "DEEPSEEK_API_KEY")]) (inr tt) :: rest
    | inl e => chat_local ask env req h = (inl e, [])
    end /\
    (forall resp,
       fst (chat_cloud ask env req h) = inr resp ->
       status resp <> 500 ->
       filter (of_kind Console) (snd (chat_cloud ask env req h)) = []).
Proof.
  intros ask env req h. split.
  - destruct (Js.get (body req) "query") as [e | query] eqn:Hq.
    + unfold_run. rewrite Hq. reflexivity.
    + run_given Hq ask (chat_local ask env) req h; eexists; reflexivity.
  - destruct (Js.get (body req) "query") as [e | query] eqn:Hq.
    + unfold_run. rewrite Hq. cbn [fst]. intros resp Hresp. discriminate Hresp.
    + run_given Hq ask (chat_cloud ask env) req h.
      all: cbn [fst snd app status]; intros resp [= <-] Hs;
           first [reflexivity | now destruct Hs].
Qed.

Lemma chat_local_logs_the_api_key_witness :
  (exists rest,
     snd (chat_local World.obliging World.no_env World.empty_question []) =
       Ev (ConsoleLog [LEnv (World.no_env "DEEPSEEK_API_KEY")]) (inr tt) :: rest) /\
  (forall resp,
     fst (chat_cloud World.obliging World.no_env World.empty_question []) = inr resp ->
     status resp <> 500 ->
     filter (of_kind Console)
       (snd (chat_cloud World.obliging World.no_env World.empty_question [])) = []).
Proof.
  apply (@chat_local_logs_the_api_key World.obliging World.no_env
           World.empty_question []).
Defined.
